(** * Automation engine: a shallow embedding of [backend/automation_engine.py]

    The engine keeps a dictionary of automations (trigger, ordered actions,
    condition names, run statistics), hands time-based ones to the job list of
    the [schedule] package, and runs action lists against an injected service
    manager.  Python dictionaries received from callers are association lists
    of [pyval]; the engine's own [self.automations] is a [gmap] keyed by the
    automation id; exceptions are an explicit result type. *)

From Stdlib Require Import ZArith QArith Ascii.
From stdpp Require Import gmap strings list fin_maps pretty.

Local Open Scope string_scope.
Local Open Scope Z_scope.

(** ** Python values and exceptions *)

(** The values a JSON request body can carry, plus opaque objects (what a
    service call hands back: a coroutine, a connector reply).  Floats are left
    out: the engine never computes with one. *)
#[local] Set Warnings "-register-all".
Inductive pyval : Type :=
  | PyNone
  | PyBool (b : bool)
  | PyInt (n : Z)
  | PyStr (s : string)
  | PyList (l : list pyval)
  | PyDict (d : list (string * pyval))
  | PyObj (descr : string).

Abbreviation pydict := (list (string * pyval)).

Inductive exn : Type :=
  | KeyError (key : string)
  | ValueError (v : pyval) (enum : string)
  | TypeError (what : string)
  | AttributeError (attr : string)
  | ServiceError (msg : string).

(** A computation that either returns or raises. *)
Inductive res (A : Type) : Type :=
  | Ok (a : A)
  | Raise (e : exn).
Arguments Ok {A} a.
Arguments Raise {A} e.

Definition bind {A B} (m : res A) (k : A -> res B) : res B :=
  match m with
  | Ok a => k a
  | Raise e => Raise e
  end.

Notation "x <- m ;; k" := (bind m (fun x => k))
  (at level 100, m at next level, right associativity).

(** [d.get(k)] on a dictionary: the first binding of the key. *)
Fixpoint dict_get (d : pydict) (k : string) : option pyval :=
  match d with
  | [] => None
  | (k', v) :: rest => if String.eqb k' k then Some v else dict_get rest k
  end.

(** [d.get(k, dflt)] *)
Definition dict_get_default (d : pydict) (k : string) (dflt : pyval) : pyval :=
  match dict_get d k with
  | Some v => v
  | None => dflt
  end.

(** [d[k]] *)
Definition dict_subscript (d : pydict) (k : string) : res pyval :=
  match dict_get d k with
  | Some v => Ok v
  | None => Raise (KeyError k)
  end.

(** [v[k]] on a value that is only hoped to be a dictionary. *)
Definition py_subscript (v : pyval) (k : string) : res pyval :=
  match v with
  | PyDict d => dict_subscript d k
  | _ => Raise (TypeError "subscript")
  end.

(** [v.get(k, dflt)] on a value that is only hoped to be a dictionary. *)
Definition py_get (v : pyval) (k : string) (dflt : pyval) : res pyval :=
  match v with
  | PyDict d => Ok (dict_get_default d k dflt)
  | _ => Raise (AttributeError "get")
  end.

(** Truth value of [v] as [if v:] / [not v] see it. *)
Definition truthy (v : pyval) : bool :=
  match v with
  | PyNone => false
  | PyBool b => b
  | PyInt n => negb (n =? 0)
  | PyStr s => negb (String.eqb s "")
  | PyList l => match l with [] => false | _ => true end
  | PyDict d => match d with [] => false | _ => true end
  | PyObj _ => true
  end.

(** [v == "literal"] *)
Definition py_eq_str (v : pyval) (s : string) : bool :=
  match v with
  | PyStr s' => String.eqb s' s
  | _ => false
  end.

(** [v > 0]: defined on integers and booleans, a [TypeError] otherwise. *)
Definition py_gt_zero (v : pyval) : res bool :=
  match v with
  | PyInt n => Ok (0 <? n)
  | PyBool b => Ok b
  | _ => Raise (TypeError "'>' not supported")
  end.

(** ** The entity model *)

Inductive TriggerType : Type :=
  | TIME_BASED
  | EVENT_BASED
  | CONDITION_BASED
  | MANUAL.

Inductive ActionType : Type :=
  | SEND_MESSAGE
  | CREATE_TASK
  | UPDATE_TASK
  | SEND_EMAIL
  | CREATE_CALENDAR_EVENT
  | PLAY_MUSIC
  | SET_REMINDER
  | LOG_ACTIVITY
  | CUSTOM_SCRIPT.

(** [member.value] *)
Definition TriggerType_value (t : TriggerType) : string :=
  match t with
  | TIME_BASED => "time_based"
  | EVENT_BASED => "event_based"
  | CONDITION_BASED => "condition_based"
  | MANUAL => "manual"
  end.

Definition ActionType_value (t : ActionType) : string :=
  match t with
  | SEND_MESSAGE => "send_message"
  | CREATE_TASK => "create_task"
  | UPDATE_TASK => "update_task"
  | SEND_EMAIL => "send_email"
  | CREATE_CALENDAR_EVENT => "create_calendar_event"
  | PLAY_MUSIC => "play_music"
  | SET_REMINDER => "set_reminder"
  | LOG_ACTIVITY => "log_activity"
  | CUSTOM_SCRIPT => "custom_script"
  end.

Definition all_TriggerType : list TriggerType :=
  [TIME_BASED; EVENT_BASED; CONDITION_BASED; MANUAL].

Definition all_ActionType : list ActionType :=
  [SEND_MESSAGE; CREATE_TASK; UPDATE_TASK; SEND_EMAIL; CREATE_CALENDAR_EVENT;
   PLAY_MUSIC; SET_REMINDER; LOG_ACTIVITY; CUSTOM_SCRIPT].

(** Lookup of an enum member by value, as the call [TriggerType(v)] does it:
    the member whose value equals [v], a [ValueError] when there is none. *)
Definition enum_by_value {E} (members : list E) (value : E -> string)
    (name : string) (v : pyval) : res E :=
  match List.find (fun m => py_eq_str v (value m)) members with
  | Some m => Ok m
  | None => Raise (ValueError v name)
  end.

Definition TriggerType_of (v : pyval) : res TriggerType :=
  enum_by_value all_TriggerType TriggerType_value "TriggerType" v.

Definition ActionType_of (v : pyval) : res ActionType :=
  enum_by_value all_ActionType ActionType_value "ActionType" v.

Record AutomationTrigger : Type := {
  trigger_type : TriggerType;
  trigger_condition : pyval;
  trigger_parameters : pyval
}.

Record AutomationAction : Type := {
  action_type : ActionType;
  action_parameters : pyval;
  action_service : pyval;
  delay_seconds : pyval
}.

(** Instants are microseconds since the epoch, the resolution of
    [datetime.now()].  [success_rate] is a float in the source; the engine
    only ever stores the literal [1.0] in it, so a rational carries it
    exactly. *)
Record Automation : Type := {
  id : string;
  name : string;
  description : string;
  trigger : AutomationTrigger;
  actions : list AutomationAction;
  conditions : list string;
  enabled : bool;
  created_at : Z;
  last_run : option Z;
  run_count : Z;
  success_rate : Q
}.

(** ** The service manager and the run of an action list *)

(** The four capabilities the engine calls on [self.service_manager]. *)
Inductive gateway_call : Type :=
  | send_message (message recipient channel : pyval)
  | create_task (title description priority due_date service : pyval)
  | update_task (task_id updates : pyval)
  | create_calendar_event (title start_time end_time description : pyval).

(** What a run does to the outside world, oldest first. *)
Inductive event : Type :=
  | EvSleep (seconds : pyval)
  | EvCall (c : gateway_call).

(** The injected service manager: given what has happened so far, a call
    returns a value or raises. *)
Class ServiceManager : Type :=
  service_call : list event -> gateway_call -> res pyval.

(** The manager of [service_connectors.py] declares its methods [async def]:
    called without [await], as the engine does, each hands back a coroutine
    object and runs nothing. *)
Definition async_service_manager : ServiceManager :=
  fun _ _ => Ok (PyObj "coroutine").

(** A manager whose every call raises. *)
Definition failing_service_manager : ServiceManager :=
  fun _ _ => Raise (ServiceError "service unavailable").

(** The value [_execute_action] returns. *)
Inductive action_output : Type :=
  | ServiceReply (v : pyval)
  | Acknowledged (message : string) (interpolated : option pyval)
  | UnknownAction (t : ActionType).

(** One entry of the [results] list. *)
Record ActionResult : Type := {
  result_action : string;
  result_success : bool;
  result_payload : action_output + exn
}.

Record RunResult : Type := {
  automation_id : string;
  automation_name : string;
  executed_at : Z;
  results : list ActionResult
}.

Section Execution.
Context {SM : ServiceManager}.

Definition _replace_placeholders (params : pyval) (context : pydict) : pyval :=
  params.

(** A call into the service manager: logged, then answered. *)
Definition call_service (tr : list event) (c : gateway_call)
    : list event * res action_output :=
  ((tr ++ [EvCall c])%list,
   match service_call tr c with
   | Ok v => Ok (ServiceReply v)
   | Raise e => Raise e
   end).

(** The arguments of a call are evaluated left to right; the first one that
    raises ends the action before the service manager is reached. *)
Definition _execute_action (action : AutomationAction) (context : pydict)
    (tr : list event) : list event * res action_output :=
  let params := _replace_placeholders (action_parameters action) context in
  let service := action_service action in
  let prepared : res (gateway_call + action_output) :=
    match action_type action with
    | SEND_MESSAGE =>
        message <- py_subscript params "message";;
        recipient <- py_subscript params "recipient";;
        Ok (inl (send_message message recipient service))
    | CREATE_TASK =>
        title <- py_subscript params "title";;
        description <- py_get params "description" (PyStr "");;
        priority <- py_get params "priority" (PyStr "medium");;
        due_date <- py_get params "due_date" PyNone;;
        Ok (inl (create_task title description priority due_date service))
    | UPDATE_TASK =>
        task_id <- py_subscript params "task_id";;
        updates <- py_subscript params "updates";;
        Ok (inl (update_task task_id updates))
    | SEND_EMAIL =>
        message <- py_subscript params "message";;
        recipient <- py_subscript params "recipient";;
        Ok (inl (send_message message recipient (PyStr "email")))
    | CREATE_CALENDAR_EVENT =>
        title <- py_subscript params "title";;
        start_time <- py_subscript params "start_time";;
        end_time <- py_subscript params "end_time";;
        description <- py_get params "description" (PyStr "");;
        Ok (inl (create_calendar_event title start_time end_time description))
    | PLAY_MUSIC =>
        playlist <- py_get params "playlist" (PyStr "default");;
        Ok (inr (Acknowledged "Playing music: " (Some playlist)))
    | SET_REMINDER =>
        message <- py_subscript params "message";;
        Ok (inr (Acknowledged "Reminder set: " (Some message)))
    | LOG_ACTIVITY =>
        Ok (inr (Acknowledged "Activity logged" None))
    | CUSTOM_SCRIPT =>
        Ok (inr (UnknownAction CUSTOM_SCRIPT))
    end in
  match prepared with
  | Ok (inl c) => call_service tr c
  | Ok (inr out) => (tr, Ok out)
  | Raise e => (tr, Raise e)
  end.

(** The body of the [try] for one action: the delay, then the action. *)
Definition attempt_action (action : AutomationAction) (context : pydict)
    (tr : list event) : list event * res action_output :=
  match py_gt_zero (delay_seconds action) with
  | Raise e => (tr, Raise e)
  | Ok true => _execute_action action context (tr ++ [EvSleep (delay_seconds action)])%list
  | Ok false => _execute_action action context tr
  end.

(** One turn of the [for] loop: the [try] and its [except Exception]. *)
Definition run_action (action : AutomationAction) (context : pydict)
    (tr : list event) : list event * ActionResult :=
  match attempt_action action context tr with
  | (tr', Ok out) =>
      (tr', {| result_action := ActionType_value (action_type action);
               result_success := true;
               result_payload := inl out |})
  | (tr', Raise e) =>
      (tr', {| result_action := ActionType_value (action_type action);
               result_success := false;
               result_payload := inr e |})
  end.

Fixpoint run_actions (acts : list AutomationAction) (context : pydict)
    (tr : list event) : list event * list ActionResult :=
  match acts with
  | [] => (tr, [])
  | action :: rest =>
      let '(tr1, r) := run_action action context tr in
      let '(tr2, rs) := run_actions rest context tr1 in
      (tr2, r :: rs)
  end.

(** [now] is the clock reading taken for [executed_at]. *)
Definition _execute_automation (automation : Automation) (context : pydict)
    (now : Z) (tr : list event) : list event * RunResult :=
  let '(tr', rs) := run_actions (actions automation) context tr in
  (tr', {| automation_id := id automation;
           automation_name := name automation;
           executed_at := now;
           results := rs |}).

End Execution.

(** ** The job list of the [schedule] package *)

Inductive TimeUnit : Type :=
  | minutes
  | hours
  | days.

(** A job as [schedule.every(n).<unit>.at(t).do(f, automation, {}).tag(id)]
    builds it.  The job keeps the automation object itself; what it runs,
    [_execute_automation], reads only [actions], [id] and [name], which
    nothing assigns after construction, so the record stored here is the
    object as the job sees it.  When a job is due is the package's clock
    arithmetic and stays outside: the worker is given the due jobs. *)
Record Job : Type := {
  job_interval : Z;
  job_unit : TimeUnit;
  job_at_time : option string;
  job_target : Automation;
  job_tags : list string
}.

(** [tag in job.tags] *)
Definition has_tag (tag : string) (j : Job) : bool :=
  existsb (String.eqb tag) (job_tags j).

(** [schedule.clear(tag)] *)
Definition schedule_clear (tag : string) (js : list Job) : list Job :=
  List.filter (fun j => negb (has_tag tag j)) js.

(** The pending timers that carry an automation's id. *)
Definition timers_of (tag : string) (js : list Job) : list Job :=
  List.filter (has_tag tag) js.

(** ** The engine *)

(** [self.automations], the package-global job list, and the trace of what
    runs have done to the outside world. *)
Record engine : Type := {
  automations : gmap string Automation;
  jobs : list Job;
  trace : list event
}.

Definition empty_engine : engine :=
  {| automations := ∅; jobs := []; trace := [] |}.

(** What the public operations return. *)
Inductive reply : Type :=
  | Created (new_id new_name status message : string)
  | Success (message : string)
  | Error (message : string)
  | Ran (r : RunResult).

Definition set_enabled (b : bool) (a : Automation) : Automation :=
  {| id := id a; name := name a; description := description a;
     trigger := trigger a; actions := actions a; conditions := conditions a;
     enabled := b; created_at := created_at a; last_run := last_run a;
     run_count := run_count a; success_rate := success_rate a |}.

(** [automation.last_run = datetime.now(); automation.run_count += 1] *)
Definition record_run (now : Z) (a : Automation) : Automation :=
  {| id := id a; name := name a; description := description a;
     trigger := trigger a; actions := actions a; conditions := conditions a;
     enabled := enabled a; created_at := created_at a; last_run := Some now;
     run_count := run_count a + 1; success_rate := success_rate a |}.

(** [f"auto_{int(datetime.now().timestamp())}"]: the clock reading cut to
    whole seconds. *)
Definition automation_id_at (now : Z) : string :=
  "auto_" +:+ pretty (Z.quot now 1000000).

Definition every (n : Z) (u : TimeUnit) (at_time : option string)
    (automation : Automation) : Job :=
  {| job_interval := n; job_unit := u; job_at_time := at_time;
     job_target := automation; job_tags := [id automation] |}.

Definition _schedule_automation (automation : Automation) (js : list Job)
    : list Job :=
  match trigger_type (trigger automation) with
  | TIME_BASED =>
      let cron_expression := trigger_condition (trigger automation) in
      if py_eq_str cron_expression "0 8 * * *" then
        (js ++ [every 1 days (Some "08:00") automation])%list
      else if py_eq_str cron_expression "0 18 * * *" then
        (js ++ [every 1 days (Some "18:00") automation])%list
      else if py_eq_str cron_expression "0 */2 * * *" then
        (js ++ [every 2 hours None automation])%list
      else if py_eq_str cron_expression "15 * * * *" then
        (js ++ [every 15 minutes None automation])%list
      else js
  | _ => js
  end.

Definition _has_upcoming_meeting : bool := false.

Fixpoint check_each (conditions : list string) (context : pydict) : bool :=
  match conditions with
  | [] => true
  | condition :: rest =>
      if String.eqb condition "work_mode" then
        if negb (truthy (dict_get_default context "work_mode" (PyBool false)))
        then false else check_each rest context
      else if String.eqb condition "personal_mode" then
        if negb (truthy (dict_get_default context "personal_mode" (PyBool false)))
        then false else check_each rest context
      else if String.eqb condition "upcoming_meeting" then
        if negb _has_upcoming_meeting
        then false else check_each rest context
      else check_each rest context
  end.

Definition _check_conditions (conditions : list string) (context : pydict)
    : bool :=
  match conditions with
  | [] => true
  | _ => check_each conditions context
  end.

(** [x or {}] / [x or []] on an optional argument. *)
Definition or_empty {A} (x : option (list A)) : list A :=
  match x with
  | Some l => l
  | None => []
  end.

Definition parse_trigger (trigger : pydict) : res AutomationTrigger :=
  ty <- dict_subscript trigger "type";;
  type <- TriggerType_of ty;;
  condition <- dict_subscript trigger "condition";;
  Ok {| trigger_type := type;
        trigger_condition := condition;
        trigger_parameters := dict_get_default trigger "parameters" (PyDict []) |}.

Definition parse_action (action_data : pydict) : res AutomationAction :=
  ty <- dict_subscript action_data "type";;
  type <- ActionType_of ty;;
  parameters <- dict_subscript action_data "parameters";;
  Ok {| action_type := type;
        action_parameters := parameters;
        action_service := dict_get_default action_data "service" (PyStr "auto");
        delay_seconds := dict_get_default action_data "delay_seconds" (PyInt 0) |}.

Fixpoint parse_actions (actions : list pydict) : res (list AutomationAction) :=
  match actions with
  | [] => Ok []
  | action_data :: rest =>
      action_obj <- parse_action action_data;;
      action_objs <- parse_actions rest;;
      Ok (action_obj :: action_objs)
  end.

Section Engine.
Context {SM : ServiceManager}.

(** [now_id] and [now_created] are the two clock readings the call takes. *)
Definition create_automation (now_id now_created : Z) (name : string)
    (trigger : pydict) (actions : list pydict)
    (conditions : option (list string)) (st : engine) : engine * res reply :=
  let automation_id := automation_id_at now_id in
  match (trigger_obj <- parse_trigger trigger;;
         action_objs <- parse_actions actions;;
         Ok (trigger_obj, action_objs)) with
  | Raise e => (st, Raise e)
  | Ok (trigger_obj, action_objs) =>
      let automation :=
        {| id := automation_id;
           name := name;
           description := "Custom automation: " +:+ name;
           trigger := trigger_obj;
           actions := action_objs;
           conditions := or_empty conditions;
           enabled := true;
           created_at := now_created;
           last_run := None;
           run_count := 0;
           success_rate := 1%Q |} in
      let stored := <[automation_id := automation]> (automations st) in
      let js :=
        match trigger_type trigger_obj with
        | TIME_BASED => _schedule_automation automation (jobs st)
        | _ => jobs st
        end in
      ({| automations := stored; jobs := js; trace := trace st |},
       Ok (Created automation_id name "created"
             ("Automation '" +:+ name +:+ "' created successfully")))
  end.

Definition enable_automation (automation_id : string) (st : engine)
    : engine * reply :=
  match automations st !! automation_id with
  | None => (st, Error "Automation not found")
  | Some automation0 =>
      let automation := set_enabled true automation0 in
      let js :=
        match trigger_type (trigger automation) with
        | TIME_BASED => _schedule_automation automation (jobs st)
        | _ => jobs st
        end in
      ({| automations := <[automation_id := automation]> (automations st);
          jobs := js; trace := trace st |},
       Success ("Automation '" +:+ name automation +:+ "' enabled"))
  end.

Definition disable_automation (automation_id : string) (st : engine)
    : engine * reply :=
  match automations st !! automation_id with
  | None => (st, Error "Automation not found")
  | Some automation0 =>
      let automation := set_enabled false automation0 in
      let js :=
        match trigger_type (trigger automation) with
        | TIME_BASED => schedule_clear automation_id (jobs st)
        | _ => jobs st
        end in
      ({| automations := <[automation_id := automation]> (automations st);
          jobs := js; trace := trace st |},
       Success ("Automation '" +:+ name automation +:+ "' disabled"))
  end.

Definition delete_automation (automation_id : string) (st : engine)
    : engine * reply :=
  match automations st !! automation_id with
  | None => (st, Error "Automation not found")
  | Some automation =>
      let js :=
        match trigger_type (trigger automation) with
        | TIME_BASED => schedule_clear automation_id (jobs st)
        | _ => jobs st
        end in
      ({| automations := delete automation_id (automations st);
          jobs := js; trace := trace st |},
       Success ("Automation '" +:+ name automation +:+ "' deleted"))
  end.

(** [now_exec] is the reading for [executed_at], [now_run] the later one
    for [last_run]. *)
Definition trigger_automation (now_exec now_run : Z) (automation_id : string)
    (context : option pydict) (st : engine) : engine * reply :=
  match automations st !! automation_id with
  | None => (st, Error "Automation not found")
  | Some automation =>
      if negb (enabled automation) then
        (st, Error "Automation is disabled")
      else if negb (_check_conditions (conditions automation) (or_empty context)) then
        (st, Error "Automation conditions not met")
      else
        let '(tr, result) :=
          _execute_automation automation (or_empty context) now_exec (trace st) in
        ({| automations :=
              <[automation_id := record_run now_run automation]> (automations st);
            jobs := jobs st; trace := tr |},
         Ran result)
  end.

(** What the worker's [schedule.run_pending()] does with one due job: it
    calls the function the job was given, on the arguments it was given,
    and drops the value. *)
Definition run_job (now : Z) (j : Job) (st : engine) : engine * RunResult :=
  let '(tr, result) := _execute_automation (job_target j) [] now (trace st) in
  ({| automations := automations st; jobs := jobs st; trace := tr |}, result).

(** One tick of [_worker_loop]: every due job runs once.  The package takes
    the due jobs in the order of their next-run instants; here they run in
    the order of the job list. *)
Definition run_pending (due : Job -> bool) (now : Z) (st : engine) : engine :=
  fold_left (fun s j => fst (run_job now j s)) (List.filter due (jobs st)) st.

End Engine.

(** ** The specification's vocabulary *)

(** The error kinds of the specification, as the replies the engine gives. *)
Definition NotFoundError : reply := Error "Automation not found".
Definition DisabledError : reply := Error "Automation is disabled".
Definition ConditionsNotMetError : reply := Error "Automation conditions not met".

(** A run succeeded when every action in it did. *)
Definition run_succeeded (r : RunResult) : bool :=
  forallb result_success (results r).

(** The running average the specification asks for, after the
    specification's words:
    [(success_rate * run_count + (runSucceeded ? 1 : 0)) / (run_count + 1)]
    over the values before the run. *)
Definition specified_success_rate (before : Automation) (r : RunResult) : Q :=
  ((success_rate before * inject_Z (run_count before)
    + (if run_succeeded r then 1 else 0))
   / inject_Z (run_count before + 1))%Q.

(** The condition names [_check_conditions] has a branch for, each with the
    predicate that branch evaluates. *)
Definition condition_registry : list (string * (pydict -> bool)) :=
  [("work_mode",
    fun context => truthy (dict_get_default context "work_mode" (PyBool false)));
   ("personal_mode",
    fun context => truthy (dict_get_default context "personal_mode" (PyBool false)));
   ("upcoming_meeting", fun _ => _has_upcoming_meeting)].

Fixpoint registry_lookup {A} (reg : list (string * A)) (k : string) : option A :=
  match reg with
  | [] => None
  | (k', p) :: rest => if String.eqb k' k then Some p else registry_lookup rest k
  end.

Definition known_condition (c : string) : bool :=
  match registry_lookup condition_registry c with
  | Some _ => true
  | None => false
  end.

(** A name's predicate; a name without one counts as met. *)
Definition condition_met (context : pydict) (c : string) : bool :=
  match registry_lookup condition_registry c with
  | Some p => p context
  | None => true
  end.

(** The schedule strings [_schedule_automation] compares against, each with
    the job it builds: interval, unit, time of day. *)
Definition schedule_table : list (string * (Z * TimeUnit * option string)) :=
  [("0 8 * * *", (1, days, Some "08:00"));
   ("0 18 * * *", (1, days, Some "18:00"));
   ("0 */2 * * *", (2, hours, None));
   ("15 * * * *", (15, minutes, None))].

Definition supported_schedules : list string := map fst schedule_table.

Definition recognised_schedule (condition : pyval)
    : option (Z * TimeUnit * option string) :=
  match condition with
  | PyStr s => registry_lookup schedule_table s
  | _ => None
  end.

(** How many timers a call of [_schedule_automation] adds. *)
Definition timers_armed (automation : Automation) : nat :=
  match trigger_type (trigger automation),
        recognised_schedule (trigger_condition (trigger automation)) with
  | TIME_BASED, Some _ => 1
  | _, _ => 0
  end.

(** A five-field cron-like expression, after the specification's words:
    five fields separated by single spaces, each [*], a fixed value (digits)
    or a step [*/N]. *)
Fixpoint split_on (sep : Ascii.ascii) (s : string) : list string :=
  match s with
  | EmptyString => [EmptyString]
  | String c rest =>
      if Ascii.eqb c sep then EmptyString :: split_on sep rest
      else match split_on sep rest with
           | [] => [String c EmptyString]
           | field :: fields => String c field :: fields
           end
  end.

Definition is_digit (c : Ascii.ascii) : bool :=
  let n := Ascii.nat_of_ascii c in (48 <=? n)%nat && (n <=? 57)%nat.

Fixpoint all_digits (s : string) : bool :=
  match s with
  | EmptyString => true
  | String c rest => is_digit c && all_digits rest
  end.

Definition is_number (s : string) : bool :=
  negb (String.eqb s "") && all_digits s.

Definition cron_field (f : string) : bool :=
  match f with
  | "*" => true
  | String "*"%char (String "/"%char n) => is_number n
  | _ => is_number f
  end.

Definition well_formed_cron (s : string) : bool :=
  let fields := split_on " "%char s in
  (length fields =? 5)%nat && forallb cron_field fields.

(** ** Templates *)

Record Template : Type := {
  tmpl_name : string;
  tmpl_description : string;
  tmpl_trigger : pydict;
  tmpl_actions : list pydict;
  tmpl_conditions : list string
}.

(** The overrides a caller may pass, one optional entry per key read. *)
Record Customizations : Type := {
  custom_name : option string;
  custom_trigger : option pydict;
  custom_actions : option (list pydict);
  custom_conditions : option (list string)
}.

Definition no_customizations : Customizations :=
  {| custom_name := None; custom_trigger := None;
     custom_actions := None; custom_conditions := None |}.

(** [{**a, **b}]: a lookup finds [b]'s binding of a key before [a]'s. *)
Definition dict_merge (a b : pydict) : pydict := (b ++ a)%list.

(** [_initialize_templates] *)
Definition templates : list (string * Template) :=
  [("morning_routine",
    {| tmpl_name := "Morning Routine";
       tmpl_description := "Automated morning routine with task planning and motivation";
       tmpl_trigger := [("type", PyStr "time_based"); ("condition", PyStr "0 8 * * *"); ("parameters", PyDict [])];
       tmpl_actions :=
          [[("type", PyStr "create_task");
            ("parameters", PyDict [("title", PyStr "Plan your day"); ("description", PyStr "Review goals and prioritize tasks"); ("priority", PyStr "high")]);
            ("service", PyStr "auto");
            ("delay_seconds", PyInt 0)];
           [("type", PyStr "send_message");
            ("parameters", PyDict [("message", PyStr "Good morning! Here's your daily plan and motivation quote."); ("recipient", PyStr "self")]);
            ("service", PyStr "slack");
            ("delay_seconds", PyInt 30)]];
       tmpl_conditions := ["work_mode"] |});
   ("task_completion_celebration",
    {| tmpl_name := "Task Completion Celebration";
       tmpl_description := "Celebrates completed tasks and suggests next steps";
       tmpl_trigger := [("type", PyStr "event_based"); ("condition", PyStr "task_completed"); ("parameters", PyDict [])];
       tmpl_actions :=
          [[("type", PyStr "send_message");
            ("parameters", PyDict [("message", PyStr "ðŸŽ‰ Great job completing that task! What's next?"); ("recipient", PyStr "self")]);
            ("service", PyStr "slack");
            ("delay_seconds", PyInt 0)];
           [("type", PyStr "play_music");
            ("parameters", PyDict [("playlist", PyStr "celebration"); ("duration", PyInt 30)]);
            ("service", PyStr "spotify");
            ("delay_seconds", PyInt 5)]];
       tmpl_conditions := [] |});
   ("focus_time_automation",
    {| tmpl_name := "Focus Time Automation";
       tmpl_description := "Creates optimal focus environment when starting deep work";
       tmpl_trigger := [("type", PyStr "manual"); ("condition", PyStr "start_focus"); ("parameters", PyDict [])];
       tmpl_actions :=
          [[("type", PyStr "play_music");
            ("parameters", PyDict [("playlist", PyStr "focus"); ("duration", PyInt 0)]);
            ("service", PyStr "spotify");
            ("delay_seconds", PyInt 0)];
           [("type", PyStr "send_message");
            ("parameters", PyDict [("message", PyStr "ðŸ”‡ Focus mode activated. I'll minimize distractions."); ("recipient", PyStr "self")]);
            ("service", PyStr "slack");
            ("delay_seconds", PyInt 0)];
           [("type", PyStr "set_reminder");
            ("parameters", PyDict [("message", PyStr "Time for a break!"); ("delay_minutes", PyInt 25)]);
            ("service", PyStr "system");
            ("delay_seconds", PyInt 0)]];
       tmpl_conditions := [] |});
   ("meeting_preparation",
    {| tmpl_name := "Meeting Preparation";
       tmpl_description := "Prepares for upcoming meetings with relevant information";
       tmpl_trigger := [("type", PyStr "time_based"); ("condition", PyStr "15 * * * *"); ("parameters", PyDict [])];
       tmpl_actions :=
          [[("type", PyStr "send_message");
            ("parameters", PyDict [("message", PyStr "ðŸ“… Meeting in 15 minutes: {meeting_title}. Here's the agenda and prep materials."); ("recipient", PyStr "self")]);
            ("service", PyStr "slack");
            ("delay_seconds", PyInt 0)]];
       tmpl_conditions := ["upcoming_meeting"] |});
   ("evening_wind_down",
    {| tmpl_name := "Evening Wind Down";
       tmpl_description := "Helps transition from work to personal time";
       tmpl_trigger := [("type", PyStr "time_based"); ("condition", PyStr "0 18 * * *"); ("parameters", PyDict [])];
       tmpl_actions :=
          [[("type", PyStr "send_message");
            ("parameters", PyDict [("message", PyStr "ðŸŒ… Time to wind down! Here's your evening routine and tomorrow's preview."); ("recipient", PyStr "self")]);
            ("service", PyStr "slack");
            ("delay_seconds", PyInt 0)];
           [("type", PyStr "create_task");
            ("parameters", PyDict [("title", PyStr "Evening reflection"); ("description", PyStr "Review today's accomplishments and plan for tomorrow"); ("priority", PyStr "medium")]);
            ("service", PyStr "auto");
            ("delay_seconds", PyInt 0)]];
       tmpl_conditions := ["work_mode"] |});
   ("health_reminder",
    {| tmpl_name := "Health Reminder";
       tmpl_description := "Reminds to take breaks and maintain health habits";
       tmpl_trigger := [("type", PyStr "time_based"); ("condition", PyStr "0 */2 * * *"); ("parameters", PyDict [])];
       tmpl_actions :=
          [[("type", PyStr "send_message");
            ("parameters", PyDict [("message", PyStr "ðŸ’§ Time for a water break and stretch!"); ("recipient", PyStr "self")]);
            ("service", PyStr "slack");
            ("delay_seconds", PyInt 0)]];
       tmpl_conditions := ["work_mode"] |});
   ("deadline_alert",
    {| tmpl_name := "Deadline Alert";
       tmpl_description := "Alerts about upcoming deadlines and helps prioritize";
       tmpl_trigger := [("type", PyStr "condition_based"); ("condition", PyStr "deadline_approaching"); ("parameters", PyDict [("hours_ahead", PyInt 24)])];
       tmpl_actions :=
          [[("type", PyStr "send_message");
            ("parameters", PyDict [("message", PyStr "âš ï¸ Deadline approaching: {task_title} due in {time_remaining}"); ("recipient", PyStr "self")]);
            ("service", PyStr "slack");
            ("delay_seconds", PyInt 0)];
           [("type", PyStr "update_task");
            ("parameters", PyDict [("task_id", PyStr "{task_id}"); ("updates", PyDict [("priority", PyStr "urgent")])]);
            ("service", PyStr "auto");
            ("delay_seconds", PyInt 0)]];
       tmpl_conditions := [] |})].

Definition create_from_template (now_id now_created : Z)
    (template_name : string) (customizations : option Customizations)
    (st : engine) : engine * res reply :=
  match registry_lookup templates template_name with
  | None => (st, Ok (Error ("Template '" +:+ template_name +:+ "' not found")))
  | Some template =>
      let customizations := default no_customizations customizations in
      let name := default (tmpl_name template) (custom_name customizations) in
      let trigger :=
        dict_merge (tmpl_trigger template)
                   (default [] (custom_trigger customizations)) in
      let actions := default (tmpl_actions template) (custom_actions customizations) in
      let conditions :=
        default (tmpl_conditions template) (custom_conditions customizations) in
      create_automation now_id now_created name trigger actions (Some conditions) st
  end.

(** ** Reachable engine states *)

Section Reachability.
Context {SM : ServiceManager}.

(** One public operation, or one tick of the worker. *)
Inductive step : engine -> engine -> Prop :=
  | step_create now_id now_created name trigger actions conditions st :
      step st (fst (create_automation now_id now_created name trigger
                      actions conditions st))
  | step_create_from_template now_id now_created template_name custom st :
      step st (fst (create_from_template now_id now_created template_name
                      custom st))
  | step_enable k st : step st (fst (enable_automation k st))
  | step_disable k st : step st (fst (disable_automation k st))
  | step_delete k st : step st (fst (delete_automation k st))
  | step_trigger now_exec now_run k context st :
      step st (fst (trigger_automation now_exec now_run k context st))
  | step_tick due now st : step st (run_pending due now st).

Inductive reachable : engine -> Prop :=
  | reachable_init : reachable empty_engine
  | reachable_step st st' : reachable st -> step st st' -> reachable st'.

End Reachability.

(** Every automation is stored under its own id. *)
Definition keyed (st : engine) : Prop :=
  forall k a, automations st !! k = Some a -> id a = k.

(** No timer carries the id of a disabled time-based automation. *)
Definition quiet (st : engine) : Prop :=
  forall k a,
    automations st !! k = Some a ->
    trigger_type (trigger a) = TIME_BASED ->
    enabled a = false ->
    timers_of k (jobs st) = [].

(** ** Sample requests *)

(** A clock reading: 2023-11-14 22:13:20.2 UTC. *)
Definition t0 : Z := 1700000000200000.

Definition daily_trigger : pydict :=
  [("type", PyStr "time_based"); ("condition", PyStr "0 8 * * *")].

Definition monday_trigger : pydict :=
  [("type", PyStr "time_based"); ("condition", PyStr "30 9 * * 1")].

Definition manual_trigger : pydict :=
  [("type", PyStr "manual"); ("condition", PyStr "start_focus")].

Definition webhook_trigger : pydict :=
  [("type", PyStr "webhook"); ("condition", PyStr "push")].

Definition log_action : pydict :=
  [("type", PyStr "log_activity"); ("parameters", PyDict [])].

Definition plan_task : pydict :=
  [("type", PyStr "create_task");
   ("parameters", PyDict [("title", PyStr "Plan your day")])].

(** A reminder without its [message]: [params['message']] raises. *)
Definition broken_reminder : pydict :=
  [("type", PyStr "set_reminder"); ("parameters", PyDict [])].

Definition working : pydict := [("work_mode", PyBool true)].

(** The engine after one successful create at [t0]. *)
Definition engine_with (trigger : pydict) (actions : list pydict)
    (conditions : list string) : engine :=
  fst (create_automation t0 (t0 + 7) "sample" trigger actions
         (Some conditions) empty_engine).

Definition sample_id : string := "auto_1700000000".

(** ** Listings and suggestions *)

(** One entry of [get_active_automations]. *)
Record AutomationSummary : Type := {
  summary_id : string;
  summary_name : string;
  summary_description : string;
  summary_trigger_type : string;
  summary_trigger_condition : pyval;
  summary_actions_count : nat;
  summary_enabled : bool;
  summary_last_run : option Z;
  summary_run_count : Z;
  summary_success_rate : Q
}.

Definition automation_summary (auto : Automation) : AutomationSummary :=
  {| summary_id := id auto;
     summary_name := name auto;
     summary_description := description auto;
     summary_trigger_type := TriggerType_value (trigger_type (trigger auto));
     summary_trigger_condition := trigger_condition (trigger auto);
     summary_actions_count := length (actions auto);
     summary_enabled := enabled auto;
     summary_last_run := last_run auto;
     summary_run_count := run_count auto;
     summary_success_rate := success_rate auto |}.

(** The comprehension over [self.automations.values()].  The source lists in
    the dictionary's insertion order, which the map does not keep: only what
    is listed, not where, is read off this definition. *)
Definition get_active_automations (st : engine) : list AutomationSummary :=
  automation_summary <$> (map_to_list (automations st)).*2.

(** One entry of [get_automation_templates]. *)
Record TemplateSummary : Type := {
  listed_id : string;
  listed_name : string;
  listed_description : string;
  listed_trigger_type : pyval;
  listed_actions_count : nat
}.

(** A list comprehension whose element expression may raise. *)
Fixpoint collect {A B} (f : A -> res B) (l : list A) : res (list B) :=
  match l with
  | [] => Ok []
  | x :: rest =>
      y <- f x;;
      ys <- collect f rest;;
      Ok (y :: ys)
  end.

Definition template_summary (entry : string * Template) : res TemplateSummary :=
  let '(template_id, template) := entry in
  trigger_type <- dict_subscript (tmpl_trigger template) "type";;
  Ok {| listed_id := template_id;
        listed_name := tmpl_name template;
        listed_description := tmpl_description template;
        listed_trigger_type := trigger_type;
        listed_actions_count := length (tmpl_actions template) |}.

Definition get_automation_templates : res (list TemplateSummary) :=
  collect template_summary templates.

(** One entry of [suggest_automations]. *)
Record Suggestion : Type := {
  suggested_template : string;
  suggestion_reason : string;
  suggestion_impact : string
}.

(** [if user_activity.get(key):] *)
Definition activity_flag (user_activity : pydict) (key : string) : bool :=
  truthy (dict_get_default user_activity key PyNone).

Definition suggest_automations (user_activity : pydict) : list Suggestion :=
  let suggestions := [] in
  let suggestions :=
    if activity_flag user_activity "frequent_task_creation" then
      (suggestions ++
       [{| suggested_template := "task_completion_celebration";
           suggestion_reason := "You create many tasks - celebrate completions!";
           suggestion_impact := "high" |}])%list
    else suggestions in
  let suggestions :=
    if activity_flag user_activity "long_work_sessions" then
      (suggestions ++
       [{| suggested_template := "health_reminder";
           suggestion_reason := "You work long sessions - stay healthy with breaks!";
           suggestion_impact := "medium" |}])%list
    else suggestions in
  let suggestions :=
    if activity_flag user_activity "morning_planning" then
      (suggestions ++
       [{| suggested_template := "morning_routine";
           suggestion_reason := "You plan in the morning - automate your routine!";
           suggestion_impact := "high" |}])%list
    else suggestions in
  suggestions.

(** ** The repository's service manager, seen from the engine *)

(** [ServiceManager] of [service_connectors.py] has [send_message],
    [create_task] and [create_calendar_event], all [async def], and no
    [update_task] at all: the first three hand back a coroutine, the
    attribute lookup of the fourth raises. *)
Definition repository_service_manager : ServiceManager :=
  fun _ c =>
    match c with
    | update_task _ _ => Raise (AttributeError "update_task")
    | _ => Ok (PyObj "coroutine")
    end.

(** The events of a trace that are service calls. *)
Definition calls_in (tr : list event) : list gateway_call :=
  omap (fun e => match e with EvCall c => Some c | EvSleep _ => None end) tr.

(** The events of a trace that are sleeps. *)
Definition sleeps_in (tr : list event) : list pyval :=
  omap (fun e => match e with EvSleep s => Some s | EvCall _ => None end) tr.

(** The action kinds [_execute_action] answers by itself. *)
Definition answered_locally (t : ActionType) : bool :=
  match t with
  | PLAY_MUSIC | SET_REMINDER | LOG_ACTIVITY | CUSTOM_SCRIPT => true
  | _ => false
  end.

(** ** More invariants of reachable engines *)

(** Every timer runs a time-based automation whose schedule string is in the
    table, with the interval, unit and time of day the table gives, and
    carries that automation's id as its only tag. *)
Definition job_from_table (j : Job) : Prop :=
  job_tags j = [id (job_target j)]
  /\ trigger_type (trigger (job_target j)) = TIME_BASED
  /\ recognised_schedule (trigger_condition (trigger (job_target j)))
     = Some (job_interval j, job_unit j, job_at_time j).

(** The bookkeeping of one stored automation. *)
Definition consistent_record (k : string) (a : Automation) : Prop :=
  id a = k
  /\ description a = "Custom automation: " +:+ name a
  /\ 0 <= run_count a
  /\ (last_run a = None <-> run_count a = 0)
  /\ success_rate a = 1%Q.

(** What a request entry must hold for [create_automation] to accept it. *)
Definition trigger_acceptable (trig : pydict) : Prop :=
  exists t c,
    dict_get trig "type" = Some (PyStr (TriggerType_value t))
    /\ dict_get trig "condition" = Some c.

Definition action_acceptable (action_data : pydict) : Prop :=
  exists t p,
    dict_get action_data "type" = Some (PyStr (ActionType_value t))
    /\ dict_get action_data "parameters" = Some p.

(** ** What an action needs before it reaches the service manager *)

(** The keys [_execute_action] reads with [params[...]], by kind. *)
Definition subscripted_keys (t : ActionType) : list string :=
  match t with
  | SEND_MESSAGE | SEND_EMAIL => ["message"; "recipient"]
  | CREATE_TASK => ["title"]
  | UPDATE_TASK => ["task_id"; "updates"]
  | CREATE_CALENDAR_EVENT => ["title"; "start_time"; "end_time"]
  | SET_REMINDER => ["message"]
  | PLAY_MUSIC | LOG_ACTIVITY | CUSTOM_SCRIPT => []
  end.

(** The kinds whose branch looks into [params] at all. *)
Definition reads_parameters (t : ActionType) : bool :=
  match t with
  | LOG_ACTIVITY | CUSTOM_SCRIPT => false
  | _ => true
  end.

Definition has_key (d : pydict) (k : string) : bool :=
  match dict_get d k with
  | Some _ => true
  | None => false
  end.

(** The parameters are a dictionary holding every key the branch reads with
    a subscript (when the branch reads any). *)
Definition parameters_ready (action : AutomationAction) : bool :=
  if reads_parameters (action_type action) then
    match action_parameters action with
    | PyDict d => forallb (has_key d) (subscripted_keys (action_type action))
    | _ => false
    end
  else true.

(** The delay can be compared with 0. *)
Definition delay_ready (action : AutomationAction) : bool :=
  match py_gt_zero (delay_seconds action) with
  | Ok _ => true
  | Raise _ => false
  end.

Definition action_ready (action : AutomationAction) : bool :=
  delay_ready action && parameters_ready action.

(** The delay is slept. *)
Definition sleeps_first (action : AutomationAction) : bool :=
  match py_gt_zero (delay_seconds action) with
  | Ok true => true
  | _ => false
  end.

(** [time.sleep] returns for the delay.  The engine's model takes every
    sleep to return; CPython raises [OverflowError] instead when the seconds
    do not fit a 64-bit count of nanoseconds, so what is said below about an
    action going on after its delay is said for delays within that range. *)
Definition sleep_returns (action : AutomationAction) : bool :=
  match delay_seconds action with
  | PyInt n => n <=? 9223372036
  | _ => true
  end.

(** The method of the service manager a call goes to, and the method an
    action kind calls (none for the kinds the engine answers by itself). *)
Definition method_name (c : gateway_call) : string :=
  match c with
  | send_message _ _ _ => "send_message"
  | create_task _ _ _ _ _ => "create_task"
  | update_task _ _ => "update_task"
  | create_calendar_event _ _ _ _ => "create_calendar_event"
  end.

Definition method_called (t : ActionType) : option string :=
  match t with
  | SEND_MESSAGE | SEND_EMAIL => Some "send_message"
  | CREATE_TASK => Some "create_task"
  | UPDATE_TASK => Some "update_task"
  | CREATE_CALENDAR_EVENT => Some "create_calendar_event"
  | PLAY_MUSIC | SET_REMINDER | LOG_ACTIVITY | CUSTOM_SCRIPT => None
  end.

(** The manager has the method a call goes to, so the call is made.  A
    manager without the method is written as one whose call raises
    [AttributeError] with the method's name (as
    [repository_service_manager] does for [update_task]): for such a
    manager the engine's attribute lookup fails and no call takes place,
    although the model logs one.  What is said below about a call being
    made is said for managers that have the method. *)
Definition has_method {SM : ServiceManager} (c : gateway_call) : Prop :=
  forall tr, service_call tr c <> Raise (AttributeError (method_name c)).

(** ** Sample actions *)

Definition delayed_message : AutomationAction :=
  {| action_type := SEND_MESSAGE;
     action_parameters :=
       PyDict [("message", PyStr "hello"); ("recipient", PyStr "self")];
     action_service := PyStr "slack";
     delay_seconds := PyInt 30 |}.

Definition script_action : AutomationAction :=
  {| action_type := CUSTOM_SCRIPT;
     action_parameters := PyNone;
     action_service := PyStr "auto";
     delay_seconds := PyInt 0 |}.

(** An email without a recipient, and with a delay given as text. *)
Definition unready_email : AutomationAction :=
  {| action_type := SEND_EMAIL;
     action_parameters := PyDict [("message", PyStr "hello")];
     action_service := PyStr "slack";
     delay_seconds := PyStr "30" |}.

(** ** Several triggers in a row *)

Section TriggerEach.
Context {SM : ServiceManager}.

(** One manual trigger after another, each with its own two clock
    readings. *)
Definition trigger_each (k : string) (context : option pydict)
    (clock : list (Z * Z)) (st : engine) : engine :=
  fold_left (fun s '(now_exec, now_run) =>
               fst (trigger_automation now_exec now_run k context s))
            clock st.

End TriggerEach.

(** ** Task priorities of the Todoist connector *)

(** [str.lower()] on the ASCII letters.  Python also lowers letters outside
    ASCII, to letters outside ASCII (or, for the Kelvin sign and the dotted
    capital I, to text no priority name contains), so which key of the
    table below a lowered string equals, if any, is the same either way. *)
Definition ascii_lower (c : Ascii.ascii) : Ascii.ascii :=
  let n := Ascii.nat_of_ascii c in
  if (65 <=? n)%nat && (n <=? 90)%nat then Ascii.ascii_of_nat (n + 32) else c.

Fixpoint string_lower (s : string) : string :=
  match s with
  | EmptyString => EmptyString
  | String c rest => String (ascii_lower c) (string_lower rest)
  end.

Definition priority_numbers : list (string * Z) :=
  [("low", 1); ("medium", 2); ("high", 3); ("urgent", 4)].

(** [mapping.get(priority.lower(), 2)] *)
Definition _map_priority (priority : string) : Z :=
  default 2 (registry_lookup priority_numbers (string_lower priority)).

(** [mapping.get(priority, "medium")] over [{1: "low", 2: "medium",
    3: "high", 4: "urgent"}] *)
Definition _unmap_priority (priority : Z) : string :=
  if priority =? 1 then "low"
  else if priority =? 2 then "medium"
  else if priority =? 3 then "high"
  else if priority =? 4 then "urgent"
  else "medium".

(** * Properties *)

(** ** Running an action list *)

Section ExecutionFacts.
Context {SM : ServiceManager}.



Lemma run_actions_cons action rest context tr :
  run_actions (action :: rest) context tr
  = (fst (run_actions rest context (fst (run_action action context tr))),
     snd (run_action action context tr)
     :: snd (run_actions rest context (fst (run_action action context tr)))).
Proof.
  simpl. destruct (run_action action context tr) as [tr1 r]. simpl.
  destruct (run_actions rest context tr1) as [tr2 rs]. reflexivity.
Qed.




Lemma execute_automation_trace automation context now tr :
  fst (_execute_automation automation context now tr)
  = fst (run_actions (actions automation) context tr).
Proof.
  unfold _execute_automation.
  destruct (run_actions (actions automation) context tr); reflexivity.
Qed.


End ExecutionFacts.

(** Three actions, the second of which raises: three results, the second a
    failure, the third still run. *)
Example three_actions_second_fails :
  let st := engine_with manual_trigger [plan_task; broken_reminder; plan_task] [] in
  exists a r,
    automations st !! sample_id = Some a
    /\ r = snd (_execute_automation (SM := async_service_manager) a [] t0 [])
    /\ map result_success (results r) = [true; false; true]
    /\ map result_action (results r) = ["create_task"; "set_reminder"; "create_task"].
Proof.
  vm_compute. eexists _, _. repeat split; reflexivity.
Qed.

(** A service that raises fails its own action only: the task is recorded
    as failed, the log entry after it is still made. *)
Example service_failure_is_isolated :
  let st := engine_with manual_trigger [plan_task; log_action] [] in
  exists a r,
    automations st !! sample_id = Some a
    /\ r = snd (_execute_automation (SM := failing_service_manager) a [] t0 [])
    /\ map result_success (results r) = [false; true]
    /\ map result_action (results r) = ["create_task"; "log_activity"].
Proof.
  vm_compute. eexists _, _. repeat split; reflexivity.
Qed.

(** ** Condition gating *)

Lemma check_each_forallb conditions context :
  check_each conditions context = forallb (condition_met context) conditions.
Proof.
  induction conditions as [| c rest IH]; [reflexivity |].
  cbn [check_each forallb]. unfold condition_met at 1. cbn [condition_registry registry_lookup].
  rewrite (String.eqb_sym "work_mode"), (String.eqb_sym "personal_mode"),
    (String.eqb_sym "upcoming_meeting").
  destruct (String.eqb c "work_mode").
  { destruct (truthy _); simpl; [apply IH | reflexivity]. }
  destruct (String.eqb c "personal_mode").
  { destruct (truthy _); simpl; [apply IH | reflexivity]. }
  destruct (String.eqb c "upcoming_meeting"); simpl; [reflexivity | apply IH].
Qed.

Lemma check_conditions_each conditions context :
  _check_conditions conditions context = check_each conditions context.
Proof. destruct conditions; reflexivity. Qed.

Lemma condition_met_unknown context c :
  known_condition c = false -> condition_met context c = true.
Proof.
  unfold known_condition, condition_met.
  destruct (registry_lookup condition_registry c); [discriminate | reflexivity].
Qed.

Lemma forallb_filter_known context conditions :
  forallb (condition_met context) (List.filter known_condition conditions)
  = forallb (condition_met context) conditions.
Proof.
  induction conditions as [| c rest IH]; [reflexivity |].
  simpl. destruct (known_condition c) eqn:Hk; simpl.
  - by rewrite IH.
  - by rewrite condition_met_unknown, IH.
Qed.

(** C4, as the engine has it.  The empty list is met; otherwise the result is
    the conjunction of the predicates of the names the engine has a branch
    for; a name it has no branch for is skipped, so it never makes the result
    false. *)
Theorem check_conditions_conjunction_of_known conditions context :
  _check_conditions [] context = true
  /\ _check_conditions conditions context
     = forallb (condition_met context) conditions
  /\ _check_conditions conditions context
     = _check_conditions (List.filter known_condition conditions) context.
Proof.
  split; [reflexivity |].
  rewrite !check_conditions_each, !check_each_forallb. split; [reflexivity |].
  by rewrite forallb_filter_known.
Qed.

(** C4 as stated fails: a list holding only an unknown name is met. *)
Lemma unknown_condition_is_met :
  known_condition "no_such_condition" = false
  /\ _check_conditions ["no_such_condition"] [] = true
  /\ _check_conditions ["work_mode"; "no_such_condition"] working = true.
Proof. repeat split; reflexivity. Qed.

(** ** Manual triggering *)

Section TriggerFacts.
Context {SM : ServiceManager}.

(** C1, as the engine has it.  On an enabled automation whose conditions are
    met, [trigger_automation] runs the action list on the record as it stood,
    then sets [last_run], raises [run_count] by exactly one and leaves
    [success_rate] (and every other field) as stored. *)
Theorem trigger_runs_then_counts st k a context now_exec now_run :
  automations st !! k = Some a ->
  enabled a = true ->
  _check_conditions (conditions a) (or_empty context) = true ->
  let run := _execute_automation a (or_empty context) now_exec (trace st) in
  let st' := fst (trigger_automation now_exec now_run k context st) in
  snd (trigger_automation now_exec now_run k context st) = Ran (snd run)
  /\ trace st' = fst run
  /\ jobs st' = jobs st
  /\ exists a',
       automations st' !! k = Some a'
       /\ a' = record_run now_run a
       /\ last_run a' = Some now_run
       /\ run_count a' = run_count a + 1
       /\ success_rate a' = success_rate a.
Proof.
  intros Hk Hen Hcond. unfold trigger_automation.
  rewrite Hk, Hen, Hcond. simpl.
  destruct (_execute_automation a (or_empty context) now_exec (trace st))
    as [tr result]. simpl.
  repeat split. exists (record_run now_run a).
  rewrite lookup_insert_eq. repeat split.
Qed.

(** C6. Triggering a disabled automation answers [DisabledError]; triggering
    an enabled one whose conditions are unmet answers
    [ConditionsNotMetError]; either way the engine is returned as it was:
    no event is added to the trace and no statistic changes. *)
Theorem trigger_refused_leaves_engine st k a context now_exec now_run :
  automations st !! k = Some a ->
  enabled a = false
  \/ _check_conditions (conditions a) (or_empty context) = false ->
  trigger_automation now_exec now_run k context st
  = (st, if enabled a then ConditionsNotMetError else DisabledError).
Proof.
  intros Hk Hor. unfold trigger_automation. rewrite Hk.
  destruct (enabled a); simpl; [| reflexivity].
  destruct Hor as [? | ->]; [discriminate | reflexivity].
Qed.

End TriggerFacts.

(** C1 as stated fails.  An enabled automation, conditions met, one action
    that raises: the specification's average would drop to 0, the stored rate
    stays 1. *)
Lemma success_rate_not_averaged :
  let st := engine_with manual_trigger [broken_reminder] [] in
  exists a r st' a',
    automations st !! sample_id = Some a
    /\ enabled a = true
    /\ _check_conditions (conditions a) (or_empty None) = true
    /\ trigger_automation (SM := async_service_manager)
         (t0 + 1) (t0 + 2) sample_id None st = (st', Ran r)
    /\ run_succeeded r = false
    /\ automations st' !! sample_id = Some a'
    /\ run_count a' = 1
    /\ (specified_success_rate a r == 0)%Q
    /\ success_rate a' = 1%Q
    /\ ~ (success_rate a' == specified_success_rate a r)%Q.
Proof.
  vm_compute. eexists _, _, _, _.
  repeat (split; [reflexivity |]).
  intros H. discriminate H.
Qed.

Lemma trigger_runs_then_counts_witness :
  let st := engine_with manual_trigger [plan_task; broken_reminder] ["work_mode"] in
  exists a,
    automations st !! sample_id = Some a
    /\ enabled a = true
    /\ _check_conditions (conditions a) (or_empty (Some working)) = true
    /\ let run := _execute_automation (SM := async_service_manager)
                    a (or_empty (Some working)) (t0 + 1) (trace st) in
       let st' := fst (trigger_automation (SM := async_service_manager)
                         (t0 + 1) (t0 + 2) sample_id (Some working) st) in
       snd (trigger_automation (SM := async_service_manager)
              (t0 + 1) (t0 + 2) sample_id (Some working) st) = Ran (snd run)
       /\ trace st' = fst run
       /\ jobs st' = jobs st
       /\ exists a',
            automations st' !! sample_id = Some a'
            /\ a' = record_run (t0 + 2) a
            /\ last_run a' = Some (t0 + 2)
            /\ run_count a' = run_count a + 1
            /\ success_rate a' = success_rate a.
Proof.
  eexists. split; [reflexivity |]. split; [reflexivity |]. split; [reflexivity |].
  apply (trigger_runs_then_counts (SM := async_service_manager)); reflexivity.
Defined.

Lemma trigger_refused_leaves_engine_witness :
  let st := engine_with manual_trigger [plan_task] ["work_mode"] in
  exists a,
    automations st !! sample_id = Some a
    /\ (enabled a = false
        \/ _check_conditions (conditions a) (or_empty None) = false)
    /\ trigger_automation (SM := async_service_manager)
         (t0 + 1) (t0 + 2) sample_id None st
       = (st, if enabled a then ConditionsNotMetError else DisabledError).
Proof.
  eexists. split; [reflexivity |]. split; [right; reflexivity |].
  apply (trigger_refused_leaves_engine (SM := async_service_manager));
    [reflexivity | right; reflexivity].
Defined.

(** The same on a disabled automation: refused before any condition is
    looked at, statistics untouched. *)
Example trigger_disabled :
  let st := fst (disable_automation sample_id (engine_with manual_trigger [plan_task] [])) in
  trigger_automation (SM := async_service_manager)
    (t0 + 1) (t0 + 2) sample_id None st = (st, DisabledError).
Proof. vm_compute. reflexivity. Qed.

(** ** Creation *)

Lemma enum_by_value_Ok {E} (members : list E) value enum_name v m :
  enum_by_value members value enum_name v = Ok m ->
  v = PyStr (value m) /\ In m members.
Proof.
  unfold enum_by_value. destruct (List.find _ members) as [m' |] eqn:Hfind; [| discriminate].
  intros [= ->]. apply List.find_some in Hfind as [Hin Heq]. split; [| exact Hin].
  destruct v; try discriminate. simpl in Heq. apply String.eqb_eq in Heq. by subst.
Qed.

(** An action list holding an entry of unknown kind does not parse. *)
Lemma parse_actions_unknown_kind actions action_data v e :
  In action_data actions ->
  dict_get action_data "type" = Some v ->
  ActionType_of v = Raise e ->
  exists e', parse_actions actions = Raise e'.
Proof.
  intros Hin Hty Hbad. induction actions as [| first rest IH]; [destruct Hin |].
  simpl. destruct (parse_action first) as [obj | e1] eqn:Hfirst; simpl; [| eauto].
  destruct Hin as [-> | Hin].
  - unfold parse_action, dict_subscript in Hfirst. rewrite Hty in Hfirst.
    simpl in Hfirst. rewrite Hbad in Hfirst. discriminate.
  - destruct (IH Hin) as [e' ->]. simpl. eauto.
Qed.

(** A create that raises leaves the engine as it was. *)
Lemma create_raise_leaves_engine now_id now_created name trigger actions
    conditions st st' e :
  create_automation now_id now_created name trigger actions conditions st
  = (st', Raise e) ->
  st' = st.
Proof.
  unfold create_automation.
  destruct (bind (parse_trigger trigger) _) as [[trigger_obj action_objs] | e'];
    intros [= <-]; reflexivity.
Qed.

(** C5, as the engine has it.  When the trigger kind or the kind of some
    action is not a value of its enum, [create_automation] raises (the enum
    lookup's [ValueError], or an earlier [KeyError]) instead of returning an
    error reply, and the engine is left as it was: nothing is stored and no
    timer is added. *)
Theorem create_unknown_kind_raises now_id now_created name trigger actions
    conditions st :
  (exists v e, dict_get trigger "type" = Some v /\ TriggerType_of v = Raise e)
  \/ (exists action_data v e,
        In action_data actions
        /\ dict_get action_data "type" = Some v
        /\ ActionType_of v = Raise e) ->
  exists e,
    create_automation now_id now_created name trigger actions conditions st
    = (st, Raise e).
Proof.
  intros Hbad. unfold create_automation.
  destruct (parse_trigger trigger) as [trigger_obj | e1] eqn:Htrig; simpl; [| eauto].
  destruct Hbad as [(v & e & Hty & Hv) | (action_data & v & e & Hin & Hty & Hv)].
  - unfold parse_trigger, dict_subscript in Htrig. rewrite Hty in Htrig.
    simpl in Htrig. rewrite Hv in Htrig. discriminate.
  - destruct (parse_actions_unknown_kind _ _ _ _ Hin Hty Hv) as [e' ->].
    simpl. eauto.
Qed.

Lemma create_unknown_kind_raises_witness :
  ((exists v e, dict_get webhook_trigger "type" = Some v /\ TriggerType_of v = Raise e)
   \/ (exists action_data v e,
         In action_data [log_action]
         /\ dict_get action_data "type" = Some v
         /\ ActionType_of v = Raise e))
  /\ exists e,
       create_automation t0 (t0 + 7) "hook" webhook_trigger [log_action] None
         empty_engine
       = (empty_engine, Raise e).
Proof.
  assert (H : exists v e, dict_get webhook_trigger "type" = Some v
                          /\ TriggerType_of v = Raise e).
  { eexists _, _. split; reflexivity. }
  split; [left; exact H |].
  apply (create_unknown_kind_raises t0 (t0 + 7) "hook" webhook_trigger
           [log_action] None empty_engine).
  left. exact H.
Defined.

(** C5 as stated fails: the unknown kind comes back as a raised [ValueError],
    not as a returned reply. *)
Lemma create_unknown_kind_not_a_reply :
  TriggerType_of (PyStr "webhook") = Raise (ValueError (PyStr "webhook") "TriggerType")
  /\ create_automation t0 (t0 + 7) "hook" webhook_trigger [log_action] None
       empty_engine
     = (empty_engine, Raise (ValueError (PyStr "webhook") "TriggerType"))
  /\ forall st' r,
       create_automation t0 (t0 + 7) "hook" webhook_trigger [log_action] None
         empty_engine
       <> (st', Ok r).
Proof.
  split; [reflexivity |]. split; [reflexivity |].
  intros st' r H. vm_compute in H. discriminate H.
Qed.

(** The same for an action kind. *)
Example create_unknown_action_kind :
  create_automation t0 (t0 + 7) "hook" manual_trigger
    [log_action; [("type", PyStr "launch_rocket"); ("parameters", PyDict [])]]
    None empty_engine
  = (empty_engine, Raise (ValueError (PyStr "launch_rocket") "ActionType")).
Proof. reflexivity. Qed.

(** What [_schedule_automation] appends: one job for a time-based automation
    whose schedule string is in the table, nothing otherwise. *)
Lemma schedule_automation_appends automation js :
  _schedule_automation automation js
  = (js ++ match trigger_type (trigger automation),
                 recognised_schedule (trigger_condition (trigger automation)) with
           | TIME_BASED, Some (n, u, at_time) => [every n u at_time automation]
           | _, _ => []
           end)%list.
Proof.
  unfold _schedule_automation, recognised_schedule.
  destruct (trigger_type (trigger automation));
    try (destruct (trigger_condition (trigger automation)) as [| | | s | | |];
         try destruct (registry_lookup schedule_table s) as [[[? ?] ?] |];
         by rewrite app_nil_r).
  destruct (trigger_condition (trigger automation)) as [| | | s | | |];
    cbn [py_eq_str registry_lookup schedule_table]; try by rewrite app_nil_r.
  rewrite (String.eqb_sym "0 8 * * *"), (String.eqb_sym "0 18 * * *"),
    (String.eqb_sym "0 */2 * * *"), (String.eqb_sym "15 * * * *").
  repeat (match goal with |- context [String.eqb s ?l] => destruct (String.eqb s l) end;
          [reflexivity |]).
  by rewrite app_nil_r.
Qed.

Lemma has_tag_every k n u at_time automation :
  has_tag k (every n u at_time automation) = String.eqb k (id automation).
Proof. unfold has_tag. simpl. apply orb_false_r. Qed.

Lemma timers_of_app k js js' :
  timers_of k (js ++ js') = (timers_of k js ++ timers_of k js')%list.
Proof. apply List.filter_app. Qed.

(** Scheduling an automation adds [timers_armed] timers under its id. *)
Lemma timers_of_schedule_same automation js :
  length (timers_of (id automation) (_schedule_automation automation js))
  = (length (timers_of (id automation) js) + timers_armed automation)%nat.
Proof.
  rewrite schedule_automation_appends, timers_of_app, length_app.
  f_equal. unfold timers_armed.
  destruct (trigger_type (trigger automation)); try reflexivity.
  destruct (recognised_schedule _) as [[[n u] at_time] |]; [| reflexivity].
  unfold timers_of. simpl. by rewrite has_tag_every, String.eqb_refl.
Qed.

(** ... and none under any other id. *)
Lemma timers_of_schedule_other k automation js :
  id automation <> k ->
  timers_of k (_schedule_automation automation js) = timers_of k js.
Proof.
  intros Hne. rewrite schedule_automation_appends, timers_of_app.
  rewrite <- (app_nil_r (timers_of k js)) at 2. f_equal.
  destruct (trigger_type (trigger automation)); try reflexivity.
  destruct (recognised_schedule _) as [[[n u] at_time] |]; [| reflexivity].
  unfold timers_of. simpl. rewrite has_tag_every.
  destruct (String.eqb k (id automation)) eqn:Heq; [| reflexivity].
  apply String.eqb_eq in Heq. congruence.
Qed.

(** What a successful create leaves behind: the record it built, stored under
    the id it returns, and the job list [_schedule_automation] made of the
    old one. *)
Lemma create_automation_stored now_id now_created name trig acts conditions
    st st' r :
  create_automation now_id now_created name trig acts conditions st
  = (st', Ok r) ->
  exists a,
    r = Created (id a) name "created"
          ("Automation '" +:+ name +:+ "' created successfully")
    /\ id a = automation_id_at now_id
    /\ automations st' = <[id a := a]> (automations st)
    /\ enabled a = true
    /\ created_at a = now_created
    /\ run_count a = 0
    /\ last_run a = None
    /\ jobs st' = _schedule_automation a (jobs st).
Proof.
  unfold create_automation.
  destruct (bind (parse_trigger trig) _) as [[trigger_obj action_objs] | e];
    [| discriminate].
  intros [= <- <-].
  match goal with |- context [<[_ := ?a0]> _] => set (a := a0) end.
  exists a. do 7 (split; [reflexivity |]).
  unfold _schedule_automation.
  change (trigger_type (trigger a)) with (trigger_type trigger_obj).
  cbn [jobs]. destruct (trigger_type trigger_obj); reflexivity.
Qed.

(** C10, as the engine has it.  A create that succeeds stores, under the id
    its reply returns and touching no other entry, an automation with the
    requested name and the requested trigger kind and condition, with
    [enabled = true] and fresh statistics: no argument of the call can make
    the stored [enabled] false.  When the kind is time-based and the
    condition is one of the four schedule strings of the table, one timer
    running that automation is appended at once; in every other case, a
    time-based trigger with any other schedule string included, the job list
    stays as it was. *)
Theorem create_stores_enabled now_id now_created new_name trig acts
    conds st st' r :
  create_automation now_id now_created new_name trig acts conds st
  = (st', Ok r) ->
  exists a,
    r = Created (id a) new_name "created"
          ("Automation '" +:+ new_name +:+ "' created successfully")
    /\ id a = automation_id_at now_id
    /\ automations st' = <[id a := a]> (automations st)
    /\ name a = new_name
    /\ enabled a = true
    /\ run_count a = 0
    /\ last_run a = None
    /\ dict_get trig "type"
       = Some (PyStr (TriggerType_value (trigger_type (trigger a))))
    /\ dict_get trig "condition" = Some (trigger_condition (trigger a))
    /\ jobs st'
       = (jobs st
          ++ match trigger_type (trigger a),
                   recognised_schedule (trigger_condition (trigger a)) with
             | TIME_BASED, Some (n, u, at_time) => [every n u at_time a]
             | _, _ => []
             end)%list
    /\ length (timers_of (id a) (jobs st'))
       = (length (timers_of (id a) (jobs st)) + timers_armed a)%nat.
Proof.
  intros Hcreate.
  assert (Hparsed : exists trigger_obj,
            parse_trigger trig = Ok trigger_obj
            /\ forall a, automations st' !! automation_id_at now_id = Some a ->
                         trigger a = trigger_obj /\ name a = new_name).
  { revert Hcreate. unfold create_automation.
    destruct (parse_trigger trig) as [trigger_obj |]; [| discriminate]. simpl.
    destruct (parse_actions acts) as [action_objs |]; [| discriminate]. simpl.
    intros [= <- _]. exists trigger_obj. split; [reflexivity |].
    intros a. cbn [automations]. rewrite lookup_insert_eq. by intros [= <-]. }
  destruct Hparsed as (trigger_obj & Hparse & Hread).
  apply create_automation_stored in Hcreate
    as (a & Hr & Hid & Hstore & Hen & _ & Hcount & Hlast & Hjobs).
  destruct (Hread a) as [Htrigger Hname].
  { by rewrite Hstore, <- Hid, lookup_insert_eq. }
  exists a. do 7 (split; [done |]).
  assert (Htie : dict_get trig "type"
                 = Some (PyStr (TriggerType_value (trigger_type trigger_obj)))
                 /\ dict_get trig "condition"
                    = Some (trigger_condition trigger_obj)).
  { revert Hparse. unfold parse_trigger, dict_subscript.
    destruct (dict_get trig "type") as [ty |]; [| discriminate]. simpl.
    destruct (TriggerType_of ty) as [t |] eqn:Hty; [| discriminate]. simpl.
    destruct (dict_get trig "condition") as [c |]; [| discriminate]. simpl.
    intros [= <-]. apply enum_by_value_Ok in Hty as [-> _]. by split. }
  rewrite Htrigger. destruct Htie as [-> ->]. do 2 (split; [reflexivity |]).
  rewrite Hjobs. split.
  - rewrite schedule_automation_appends. by rewrite Htrigger.
  - apply timers_of_schedule_same.
Qed.

Lemma create_stores_enabled_witness :
  let st' := engine_with daily_trigger [plan_task] ["work_mode"] in
  let r := Created sample_id "sample" "created"
             "Automation 'sample' created successfully" in
  create_automation t0 (t0 + 7) "sample" daily_trigger [plan_task]
    (Some ["work_mode"]) empty_engine = (st', Ok r)
  /\ exists a,
       r = Created (id a) "sample" "created"
             ("Automation '" +:+ "sample" +:+ "' created successfully")
       /\ id a = automation_id_at t0
       /\ automations st' = <[id a := a]> (automations empty_engine)
       /\ name a = "sample"
       /\ enabled a = true
       /\ run_count a = 0
       /\ last_run a = None
       /\ dict_get daily_trigger "type"
          = Some (PyStr (TriggerType_value (trigger_type (trigger a))))
       /\ dict_get daily_trigger "condition"
          = Some (trigger_condition (trigger a))
       /\ jobs st'
          = (jobs empty_engine
             ++ match trigger_type (trigger a),
                      recognised_schedule (trigger_condition (trigger a)) with
                | TIME_BASED, Some (n, u, at_time) => [every n u at_time a]
                | _, _ => []
                end)%list
       /\ length (timers_of (id a) (jobs st'))
          = (length (timers_of (id a) (jobs empty_engine)) + timers_armed a)%nat.
Proof.
  split; [reflexivity |].
  apply (create_stores_enabled t0 (t0 + 7) "sample" daily_trigger [plan_task]
           (Some ["work_mode"]) empty_engine).
  reflexivity.
Defined.

(** C10 as stated fails in its second half.  A create with the time-based
    schedule "30 9 * * 1" succeeds and stores an enabled time-based
    automation, and no timer is scheduled for it. *)
Lemma created_time_based_without_timer :
  let created :=
    create_automation t0 (t0 + 7) "sample" monday_trigger [plan_task] None
      empty_engine in
  snd created = Ok (Created sample_id "sample" "created"
                      "Automation 'sample' created successfully")
  /\ (exists a,
        automations (fst created) !! sample_id = Some a
        /\ enabled a = true
        /\ trigger_type (trigger a) = TIME_BASED
        /\ trigger_condition (trigger a) = PyStr "30 9 * * 1")
  /\ jobs (fst created) = []
  /\ timers_of sample_id (jobs (fst created)) = [].
Proof.
  vm_compute. split; [reflexivity |]. split; [| by split].
  eexists. repeat split.
Qed.

(** Instantiating a template goes through [create_automation]: what it
    stores is enabled as well. *)
Lemma create_from_template_stores_enabled now_id now_created template_name
    custom st st' new_id new_name status message :
  create_from_template now_id now_created template_name custom st
  = (st', Ok (Created new_id new_name status message)) ->
  exists a, automations st' !! new_id = Some a /\ enabled a = true.
Proof.
  unfold create_from_template.
  destruct (registry_lookup templates template_name) as [template |];
    [| discriminate].
  intros H. apply create_automation_stored in H as (a & Hr & _ & Hstore & Hen & _).
  injection Hr as -> _. exists a. by rewrite Hstore, lookup_insert_eq.
Qed.

(** ** Identifiers *)

(** Two clock readings give the same id exactly when they fall in the same
    second. *)
Lemma automation_id_at_eq now1 now2 :
  automation_id_at now1 = automation_id_at now2
  <-> Z.quot now1 1000000 = Z.quot now2 1000000.
Proof.
  unfold automation_id_at. split.
  - intros H. simpl in H. injection H as H. by apply (inj pretty).
  - by intros ->.
Qed.

(** A successful create in the second of an earlier one takes over its id:
    the automation stored first is no longer in the catalog. *)
Lemma create_same_second_overwrites now1 created1 name1 trigger1 actions1 conds1
    now2 created2 name2 trigger2 actions2 conds2 st st1 st2 r1 r2 :
  Z.quot now1 1000000 = Z.quot now2 1000000 ->
  create_automation now1 created1 name1 trigger1 actions1 conds1 st = (st1, Ok r1) ->
  create_automation now2 created2 name2 trigger2 actions2 conds2 st1 = (st2, Ok r2) ->
  exists a1 a2,
    id a1 = id a2
    /\ automations st1 !! id a1 = Some a1
    /\ automations st2 !! id a1 = Some a2
    /\ created_at a2 = created2.
Proof.
  intros Hsec H1 H2.
  apply create_automation_stored in H1 as (a1 & _ & Hid1 & Hstore1 & _).
  apply create_automation_stored in H2 as (a2 & _ & Hid2 & Hstore2 & _ & Hc2 & _).
  apply automation_id_at_eq in Hsec.
  assert (Hsame : id a1 = id a2) by congruence.
  exists a1, a2. split; [exact Hsame |]. rewrite Hstore2, Hstore1.
  split; [apply lookup_insert_eq |]. split; [| exact Hc2].
  rewrite Hsame. apply lookup_insert_eq.
Qed.

(** C8 at two creates in one second (22:13:20.2 and 22:13:20.7): both
    succeed, both return [auto_1700000000], and the catalog holds only the
    second automation. *)
Theorem same_second_creates_share_an_id :
  let first :=
    create_automation t0 (t0 + 7) "first" manual_trigger [log_action] None
      empty_engine in
  let second :=
    create_automation (t0 + 500000) (t0 + 500007) "second" daily_trigger
      [plan_task] None (fst first) in
  snd first = Ok (Created "auto_1700000000" "first" "created"
                    "Automation 'first' created successfully")
  /\ snd second = Ok (Created "auto_1700000000" "second" "created"
                        "Automation 'second' created successfully")
  /\ name <$> automations (fst first) !! "auto_1700000000" = Some "first"
  /\ name <$> automations (fst second) !! "auto_1700000000" = Some "second"
  /\ size (automations (fst second)) = 1%nat.
Proof. vm_compute. repeat split; reflexivity. Qed.

(** ** Scheduling *)

Lemma registry_lookup_Some {A} (reg : list (string * A)) k :
  is_Some (registry_lookup reg k) <-> In k (map fst reg).
Proof.
  induction reg as [| [k' x] rest IH]; simpl.
  - split; [intros [? [=]] | intros []].
  - destruct (String.eqb k' k) eqn:Heq.
    + apply String.eqb_eq in Heq. split; eauto.
    + apply String.eqb_neq in Heq. rewrite IH. split; [auto | intros [? | ?]; [done | auto]].
Qed.

Lemma recognised_schedule_Some v :
  is_Some (recognised_schedule v)
  <-> exists s, v = PyStr s /\ In s supported_schedules.
Proof.
  unfold recognised_schedule, supported_schedules. split.
  - destruct v as [| | | s | | |]; try by intros [? ?].
    intros H. exists s. split; [reflexivity |]. by apply registry_lookup_Some.
  - intros (s & -> & Hin). by apply registry_lookup_Some.
Qed.

(** The four table entries are themselves five-field expressions. *)
Lemma supported_schedules_well_formed :
  supported_schedules = ["0 8 * * *"; "0 18 * * *"; "0 */2 * * *"; "15 * * * *"]
  /\ forallb well_formed_cron supported_schedules = true.
Proof. split; reflexivity. Qed.

(** C2, as the engine has it.  The schedule string of a time-based automation
    is compared with four literal strings.  Registering one of them appends
    one recurring job that runs this automation and is tagged with its id;
    any other value, a well-formed five-field expression or not, leaves the
    job list as it was. *)
Theorem schedule_arms_table_entries_only a js :
  (forall s,
     trigger_type (trigger a) = TIME_BASED ->
     trigger_condition (trigger a) = PyStr s ->
     In s ["0 8 * * *"; "0 18 * * *"; "0 */2 * * *"; "15 * * * *"] ->
     exists j,
       _schedule_automation a js = (js ++ [j])%list
       /\ job_target j = a
       /\ job_tags j = [id a]
       /\ registry_lookup schedule_table s
          = Some (job_interval j, job_unit j, job_at_time j))
  /\ (trigger_type (trigger a) <> TIME_BASED
      \/ (forall s,
            In s ["0 8 * * *"; "0 18 * * *"; "0 */2 * * *"; "15 * * * *"] ->
            trigger_condition (trigger a) <> PyStr s) ->
      _schedule_automation a js = js).
Proof.
  rewrite schedule_automation_appends. split.
  - intros s -> Hc Hin. rewrite Hc. unfold recognised_schedule.
    assert (Hs : is_Some (registry_lookup schedule_table s))
      by (by apply registry_lookup_Some).
    destruct Hs as [[[n u] at_time] Hs]. rewrite Hs.
    eexists. split; [reflexivity |]. repeat split.
  - intros Hnot. rewrite <- (app_nil_r js) at 2. f_equal.
    destruct (trigger_type (trigger a)) eqn:Hty; try reflexivity.
    destruct (recognised_schedule _) as [[[n u] at_time] |] eqn:Hrec; [| reflexivity].
    destruct Hnot as [Hnot | Hnot]; [done |].
    assert (Hs : is_Some (recognised_schedule (trigger_condition (trigger a))))
      by (rewrite Hrec; eauto).
    apply recognised_schedule_Some in Hs as (s & Hc & Hin).
    destruct (Hnot s Hin Hc).
Qed.

(** C2 as stated fails: "30 9 * * 1" (Mondays at 09:30) is a well-formed
    five-field expression, the create succeeds and leaves the automation
    enabled, and no timer is armed. *)
Lemma monday_schedule_arms_no_timer :
  let st := engine_with monday_trigger [plan_task] [] in
  well_formed_cron "30 9 * * 1" = true
  /\ jobs st = []
  /\ exists a,
       automations st !! sample_id = Some a
       /\ trigger_type (trigger a) = TIME_BASED
       /\ trigger_condition (trigger a) = PyStr "30 9 * * 1"
       /\ enabled a = true
       /\ _schedule_automation a [] = [].
Proof.
  vm_compute. split; [reflexivity |]. split; [reflexivity |].
  eexists. repeat split.
Qed.

(** ** Timers across enable, disable and delete *)

Lemma timers_of_clear_same k js : timers_of k (schedule_clear k js) = [].
Proof.
  unfold timers_of, schedule_clear. induction js as [| j rest IH]; [reflexivity |].
  simpl. destruct (has_tag k j) eqn:Htag; simpl; [exact IH |].
  by rewrite Htag.
Qed.

Lemma timers_of_clear_none k k' js :
  timers_of k js = [] -> timers_of k (schedule_clear k' js) = [].
Proof.
  unfold timers_of, schedule_clear. induction js as [| j rest IH]; [reflexivity |].
  simpl. destruct (has_tag k j) eqn:Htag; [discriminate |].
  intros H. destruct (negb (has_tag k' j)); simpl; [rewrite Htag |]; auto.
Qed.

Section WorkerFacts.
Context {SM : ServiceManager}.

Lemma run_job_automations now j st :
  automations (fst (run_job now j st)) = automations st
  /\ jobs (fst (run_job now j st)) = jobs st.
Proof.
  unfold run_job.
  destruct (_execute_automation (job_target j) [] now (trace st)); by split.
Qed.

(** A tick changes neither the catalog nor the job list: the scheduled path
    never writes a statistic. *)
Lemma run_pending_automations due now st :
  automations (run_pending due now st) = automations st
  /\ jobs (run_pending due now st) = jobs st.
Proof.
  unfold run_pending. generalize (List.filter due (jobs st)). intros due_jobs.
  revert st. induction due_jobs as [| j rest IH]; intros st; [by split |].
  simpl. destruct (IH (fst (run_job now j st))) as [-> ->].
  apply run_job_automations.
Qed.

(** What a due job runs is the action list itself: neither [enabled] nor the
    conditions are looked at. *)
Lemma run_job_runs_actions now j st :
  trace (fst (run_job now j st))
  = fst (run_actions (actions (job_target j)) [] (trace st)).
Proof.
  unfold run_job. rewrite <- (execute_automation_trace _ _ now).
  destruct (_execute_automation (job_target j) [] now (trace st)); reflexivity.
Qed.

End WorkerFacts.

(** The record stored back by an update keeps the id it was found under. *)
Ltac same_id_after_update Hkeyed :=
  intros [= <-]; subst; cbn [set_enabled record_run id]; by eapply Hkeyed.

Section Invariants.
Context {SM : ServiceManager}.

Lemma create_keyed now_id now_created name trig acts conditions st :
  keyed st ->
  keyed (fst (create_automation now_id now_created name trig acts conditions st)).
Proof.
  intros Hkeyed. unfold create_automation.
  destruct (bind (parse_trigger trig) _) as [[trigger_obj action_objs] | e];
    [| exact Hkeyed].
  intros k a. cbn [fst automations]. rewrite lookup_insert.
  case_decide; [intros [= <-]; by subst | apply Hkeyed].
Qed.

Lemma create_quiet now_id now_created name trig acts conditions st :
  quiet st ->
  quiet (fst (create_automation now_id now_created name trig acts conditions st)).
Proof.
  intros Hquiet.
  destruct (create_automation now_id now_created name trig acts conditions st)
    as [st' [r | e]] eqn:Hcreate.
  - apply create_automation_stored in Hcreate
      as (a' & _ & _ & Hstore & Hen & _ & _ & _ & Hjobs).
    intros k a. cbn [fst]. rewrite Hstore, Hjobs, lookup_insert.
    case_decide as Hid; [intros [= <-]; congruence |].
    intros Hk Hty Hdis. rewrite (timers_of_schedule_other _ _ _ Hid).
    by apply (Hquiet k a).
  - apply create_raise_leaves_engine in Hcreate. by subst.
Qed.

Lemma step_keyed st st' : step st st' -> keyed st -> keyed st'.
Proof.
  intros Hstep Hkeyed. destruct Hstep.
  - by apply create_keyed.
  - unfold create_from_template.
    destruct (registry_lookup templates template_name); [| exact Hkeyed].
    by apply create_keyed.
  - unfold enable_automation.
    destruct (automations st !! k) as [a0 |] eqn:Hk; [| exact Hkeyed].
    intros k' a. cbn [fst automations]. rewrite lookup_insert.
    case_decide; [same_id_after_update Hkeyed | apply Hkeyed].
  - unfold disable_automation.
    destruct (automations st !! k) as [a0 |] eqn:Hk; [| exact Hkeyed].
    intros k' a. cbn [fst automations]. rewrite lookup_insert.
    case_decide; [same_id_after_update Hkeyed | apply Hkeyed].
  - unfold delete_automation.
    destruct (automations st !! k) as [a0 |] eqn:Hk; [| exact Hkeyed].
    intros k' a. cbn [fst automations]. rewrite lookup_delete.
    case_decide; [done | apply Hkeyed].
  - unfold trigger_automation.
    destruct (automations st !! k) as [a0 |] eqn:Hk; [| exact Hkeyed].
    destruct (negb (enabled a0)); [exact Hkeyed |].
    destruct (negb (_check_conditions _ _)); [exact Hkeyed |].
    destruct (_execute_automation a0 (or_empty context) now_exec (trace st)).
    intros k' a. cbn [fst automations]. rewrite lookup_insert.
    case_decide; [same_id_after_update Hkeyed | apply Hkeyed].
  - intros k a. destruct (run_pending_automations due now st) as [-> _].
    apply Hkeyed.
Qed.

Lemma step_quiet st st' : step st st' -> keyed st -> quiet st -> quiet st'.
Proof.
  intros Hstep Hkeyed Hquiet. destruct Hstep.
  - by apply create_quiet.
  - unfold create_from_template.
    destruct (registry_lookup templates template_name); [| exact Hquiet].
    by apply create_quiet.
  - unfold enable_automation.
    destruct (automations st !! k) as [a0 |] eqn:Hk; [| exact Hquiet].
    intros k' a. cbn [fst automations jobs]. rewrite lookup_insert.
    case_decide; [intros [= <-]; discriminate |].
    intros Hk' Hty Hdis.
    assert (Hkeep : timers_of k' (_schedule_automation (set_enabled true a0) (jobs st))
                    = timers_of k' (jobs st)).
    { apply timers_of_schedule_other. cbn [set_enabled id].
      rewrite (Hkeyed _ _ Hk). done. }
    destruct (trigger_type (trigger (set_enabled true a0)));
      rewrite ?Hkeep; by apply (Hquiet k' a).
  - unfold disable_automation.
    destruct (automations st !! k) as [a0 |] eqn:Hk; [| exact Hquiet].
    intros k' a. cbn [fst automations jobs]. rewrite lookup_insert.
    case_decide.
    + intros [= <-] Hty _. subst k'. rewrite Hty. apply timers_of_clear_same.
    + intros Hk' Hty Hdis.
      destruct (trigger_type (trigger (set_enabled false a0)));
        [apply timers_of_clear_none | ..]; by apply (Hquiet k' a).
  - unfold delete_automation.
    destruct (automations st !! k) as [a0 |] eqn:Hk; [| exact Hquiet].
    intros k' a. cbn [fst automations jobs]. rewrite lookup_delete.
    case_decide; [done |].
    intros Hk' Hty Hdis.
    destruct (trigger_type (trigger a0));
      [apply timers_of_clear_none | ..]; by apply (Hquiet k' a).
  - unfold trigger_automation.
    destruct (automations st !! k) as [a0 |] eqn:Hk; [| exact Hquiet].
    destruct (negb (enabled a0)); [exact Hquiet |].
    destruct (negb (_check_conditions _ _)); [exact Hquiet |].
    destruct (_execute_automation a0 (or_empty context) now_exec (trace st)).
    intros k' a. cbn [fst automations jobs]. rewrite lookup_insert.
    case_decide.
    + intros [= <-] Hty Hdis. subst k'. by apply (Hquiet k a0).
    + by apply Hquiet.
  - intros k a. destruct (run_pending_automations due now st) as [-> ->].
    apply Hquiet.
Qed.

Lemma reachable_keyed_quiet st : reachable st -> keyed st /\ quiet st.
Proof.
  induction 1 as [| st st' _ [Hkeyed Hquiet] Hstep].
  - split; intros k a Hk; cbn [empty_engine automations] in Hk;
      by rewrite lookup_empty in Hk.
  - split; [by eapply step_keyed | by eapply step_quiet].
Qed.


End Invariants.



(** ** The scheduled path *)

(** C3 at the morning-routine template, created at [t0] and fired by the
    worker with nobody in work mode.  Its only condition, [work_mode], is
    unmet on the empty context the job is given, and a manual trigger on the
    same engine is refused for it; the tick runs both actions all the same,
    and afterwards the record still shows no run. *)
Theorem scheduled_run_skips_gate_and_statistics :
  let st := fst (create_from_template t0 (t0 + 7) "morning_routine" None
                   empty_engine) in
  let st' := run_pending (SM := async_service_manager)
               (fun _ => true) (t0 + 9) st in
  (conditions <$> automations st !! sample_id) = Some ["work_mode"]
  /\ (job_tags <$> jobs st) = [[sample_id]]
  /\ (_check_conditions ["work_mode"] [] = false)
  /\ trigger_automation (SM := async_service_manager)
       (t0 + 8) (t0 + 9) sample_id None st
     = (st, ConditionsNotMetError)
  /\ trace st = []
  /\ trace st'
     = [EvCall (create_task (PyStr "Plan your day")
                  (PyStr "Review goals and prioritize tasks")
                  (PyStr "high") PyNone (PyStr "auto"));
        EvSleep (PyInt 30);
        EvCall (send_message
                  (PyStr "Good morning! Here's your daily plan and motivation quote.")
                  (PyStr "self") (PyStr "slack"))]
  /\ automations st' = automations st
  /\ (run_count <$> automations st' !! sample_id) = Some 0
  /\ (last_run <$> automations st' !! sample_id) = Some None.
Proof.
  cbv zeta. repeat split; vm_compute; reflexivity.
Qed.

(** * Further properties of the engine *)

(** ** Kinds and what a create accepts *)

Lemma TriggerType_of_value t : TriggerType_of (PyStr (TriggerType_value t)) = Ok t.
Proof. destruct t; reflexivity. Qed.

Lemma ActionType_of_value t : ActionType_of (PyStr (ActionType_value t)) = Ok t.
Proof. destruct t; reflexivity. Qed.

Lemma TriggerType_of_Ok v t :
  TriggerType_of v = Ok t <-> v = PyStr (TriggerType_value t).
Proof.
  split.
  - intros H. by apply enum_by_value_Ok in H as [-> _].
  - intros ->. apply TriggerType_of_value.
Qed.

Lemma ActionType_of_Ok v t :
  ActionType_of v = Ok t <-> v = PyStr (ActionType_value t).
Proof.
  split.
  - intros H. by apply enum_by_value_Ok in H as [-> _].
  - intros ->. apply ActionType_of_value.
Qed.

(** X1. Kinds round-trip through their string values: looking a member's
    value up gives the member back, for triggers and for actions, and an
    automation's listed [trigger_type] names the kind it was created with. *)
Theorem kind_values_round_trip :
  (forall t, TriggerType_of (PyStr (TriggerType_value t)) = Ok t)
  /\ (forall t, ActionType_of (PyStr (ActionType_value t)) = Ok t)
  /\ (forall v t, TriggerType_of v = Ok t -> v = PyStr (TriggerType_value t))
  /\ (forall v t, ActionType_of v = Ok t -> v = PyStr (ActionType_value t))
  /\ (forall a,
        TriggerType_of (PyStr (summary_trigger_type (automation_summary a)))
        = Ok (trigger_type (trigger a))).
Proof.
  split; [apply TriggerType_of_value |]. split; [apply ActionType_of_value |].
  split; [intros v t; apply TriggerType_of_Ok |].
  split; [intros v t; apply ActionType_of_Ok |].
  intros a. apply TriggerType_of_value.
Qed.

Lemma parse_trigger_Ok trig :
  (exists t, parse_trigger trig = Ok t) <-> trigger_acceptable trig.
Proof.
  unfold parse_trigger, dict_subscript, trigger_acceptable. split.
  - intros [obj H]. destruct (dict_get trig "type") as [ty |]; [| discriminate].
    simpl in H. destruct (TriggerType_of ty) as [t |] eqn:Hty; [| discriminate].
    simpl in H. destruct (dict_get trig "condition") as [c |]; [| discriminate].
    apply TriggerType_of_Ok in Hty as ->. eauto.
  - intros (t & c & -> & ->). simpl. rewrite TriggerType_of_value. simpl. eauto.
Qed.

Lemma parse_action_Ok action_data :
  (exists a, parse_action action_data = Ok a) <-> action_acceptable action_data.
Proof.
  unfold parse_action, dict_subscript, action_acceptable. split.
  - intros [obj H]. destruct (dict_get action_data "type") as [ty |]; [| discriminate].
    simpl in H. destruct (ActionType_of ty) as [t |] eqn:Hty; [| discriminate].
    simpl in H. destruct (dict_get action_data "parameters") as [p |]; [| discriminate].
    apply ActionType_of_Ok in Hty as ->. eauto.
  - intros (t & p & -> & ->). simpl. rewrite ActionType_of_value. simpl. eauto.
Qed.

Lemma parse_actions_Ok acts :
  (exists l, parse_actions acts = Ok l) <-> Forall action_acceptable acts.
Proof.
  induction acts as [| action_data rest IH]; simpl.
  - split; [constructor | eauto].
  - split.
    + intros [l H]. destruct (parse_action action_data) as [obj |] eqn:Hobj;
        [| discriminate]. simpl in H.
      destruct (parse_actions rest) as [objs |]; [| discriminate].
      constructor; [apply parse_action_Ok | apply IH]; eauto.
    + intros H. apply Forall_cons in H as [Hfirst Hrest].
      apply parse_action_Ok in Hfirst as [obj ->]. apply IH in Hrest as [objs ->].
      simpl. eauto.
Qed.

(** X2. A create succeeds exactly when the trigger carries a known kind under
    [type] and something under [condition], and every action carries a known
    kind under [type] and something under [parameters]; name, conditions,
    clock and the engine's state play no part. *)
Theorem create_succeeds_iff now_id now_created name trig acts conditions st :
  (exists st' r,
     create_automation now_id now_created name trig acts conditions st
     = (st', Ok r))
  <-> trigger_acceptable trig /\ Forall action_acceptable acts.
Proof.
  rewrite <- parse_trigger_Ok, <- parse_actions_Ok. unfold create_automation. split.
  - intros (st' & r & H).
    destruct (parse_trigger trig) as [t |]; [| discriminate]. simpl in H.
    destruct (parse_actions acts) as [l |]; [| discriminate]. eauto.
  - intros [[t ->] [l ->]]. simpl. eauto.
Qed.

Lemma parse_action_fields action_data act :
  parse_action action_data = Ok act ->
  dict_get action_data "type" = Some (PyStr (ActionType_value (action_type act)))
  /\ dict_get action_data "parameters" = Some (action_parameters act)
  /\ action_service act = dict_get_default action_data "service" (PyStr "auto")
  /\ delay_seconds act = dict_get_default action_data "delay_seconds" (PyInt 0).
Proof.
  unfold parse_action, dict_subscript.
  destruct (dict_get action_data "type") as [ty |]; [| discriminate]. simpl.
  destruct (ActionType_of ty) as [t |] eqn:Hty; [| discriminate]. simpl.
  destruct (dict_get action_data "parameters") as [p |]; [| discriminate]. simpl.
  intros [= <-]. apply ActionType_of_Ok in Hty as ->. by repeat split.
Qed.

Lemma parse_actions_fields acts objs :
  parse_actions acts = Ok objs ->
  Forall2 (fun action_data act => parse_action action_data = Ok act) acts objs.
Proof.
  revert objs. induction acts as [| action_data rest IH]; intros objs; simpl.
  - intros [= <-]. constructor.
  - destruct (parse_action action_data) as [obj |] eqn:Hobj; [| discriminate].
    simpl. destruct (parse_actions rest) as [l |]; [| discriminate]. simpl.
    intros [= <-]. constructor; [exact Hobj | by apply IH].
Qed.

(** The fields of the record a successful create stores, read back against
    the request. *)
Lemma create_automation_fields now_id now_created new_name trig acts conds
    st st' r :
  create_automation now_id now_created new_name trig acts conds st
  = (st', Ok r) ->
  exists a,
    automations st' !! automation_id_at now_id = Some a
    /\ name a = new_name
    /\ conditions a = or_empty conds
    /\ dict_get trig "type"
       = Some (PyStr (TriggerType_value (trigger_type (trigger a))))
    /\ dict_get trig "condition" = Some (trigger_condition (trigger a))
    /\ trigger_parameters (trigger a)
       = dict_get_default trig "parameters" (PyDict [])
    /\ Forall2 (fun action_data act =>
                  dict_get action_data "type"
                  = Some (PyStr (ActionType_value (action_type act)))
                  /\ dict_get action_data "parameters"
                     = Some (action_parameters act)
                  /\ action_service act
                     = dict_get_default action_data "service" (PyStr "auto")
                  /\ delay_seconds act
                     = dict_get_default action_data "delay_seconds" (PyInt 0))
               acts (actions a).
Proof.
  unfold create_automation.
  destruct (parse_trigger trig) as [trigger_obj |] eqn:Htrig; [| discriminate].
  simpl. destruct (parse_actions acts) as [action_objs |] eqn:Hacts;
    [| discriminate].
  simpl. intros [= <- _]. eexists. split; [apply lookup_insert_eq |].
  cbn [name conditions trigger actions]. do 2 (split; [reflexivity |]).
  revert Htrig. unfold parse_trigger, dict_subscript.
  destruct (dict_get trig "type") as [ty |]; [| discriminate]. simpl.
  destruct (TriggerType_of ty) as [t |] eqn:Hty; [| discriminate]. simpl.
  destruct (dict_get trig "condition") as [c |]; [| discriminate]. simpl.
  intros [= <-]. apply TriggerType_of_Ok in Hty as ->.
  do 3 (split; [reflexivity |]).
  eapply Forall2_impl; [by apply parse_actions_fields |].
  intros action_data act. apply parse_action_fields.
Qed.

(** X3. What a successful create stores is what was asked for, under the id
    its reply returns: the reply names the stored record's id and the given
    name, and the record stored under that id has the given name and
    conditions (none when omitted), the trigger's kind, condition and
    parameters (an empty dictionary when omitted), and one action per
    request entry, in order, with its kind and parameters, its service
    (["auto"] when omitted) and its delay (0 when omitted). *)
Theorem create_stores_the_request now_id now_created new_name trig acts conds
    st st' r :
  create_automation now_id now_created new_name trig acts conds st
  = (st', Ok r) ->
  exists a,
    r = Created (id a) new_name "created"
          ("Automation '" +:+ new_name +:+ "' created successfully")
    /\ id a = automation_id_at now_id
    /\ automations st' !! id a = Some a
    /\ name a = new_name
    /\ conditions a = or_empty conds
    /\ dict_get trig "type"
       = Some (PyStr (TriggerType_value (trigger_type (trigger a))))
    /\ dict_get trig "condition" = Some (trigger_condition (trigger a))
    /\ trigger_parameters (trigger a)
       = dict_get_default trig "parameters" (PyDict [])
    /\ Forall2 (fun action_data act =>
                  dict_get action_data "type"
                  = Some (PyStr (ActionType_value (action_type act)))
                  /\ dict_get action_data "parameters"
                     = Some (action_parameters act)
                  /\ action_service act
                     = dict_get_default action_data "service" (PyStr "auto")
                  /\ delay_seconds act
                     = dict_get_default action_data "delay_seconds" (PyInt 0))
               acts (actions a).
Proof.
  intros Hcreate.
  destruct (create_automation_fields _ _ _ _ _ _ _ _ _ Hcreate)
    as (a & Hk & Hfields).
  apply create_automation_stored in Hcreate
    as (a' & Hr & Hid & Hstore & _).
  assert (a' = a) as ->.
  { rewrite Hstore, <- Hid, lookup_insert_eq in Hk. by injection Hk. }
  exists a. split; [exact Hr |]. split; [exact Hid |].
  split; [by rewrite Hstore, lookup_insert_eq | exact Hfields].
Qed.

Lemma create_stores_the_request_witness :
  let request :=
    [plan_task;
     [("type", PyStr "send_message");
      ("parameters", PyDict [("message", PyStr "hello"); ("recipient", PyStr "self")]);
      ("service", PyStr "slack");
      ("delay_seconds", PyInt 30)]] in
  let created :=
    create_automation t0 (t0 + 7) "sample" daily_trigger request None
      empty_engine in
  let r := Created sample_id "sample" "created"
             "Automation 'sample' created successfully" in
  created = (fst created, Ok r)
  /\ exists a,
       r = Created (id a) "sample" "created"
             ("Automation '" +:+ "sample" +:+ "' created successfully")
       /\ id a = automation_id_at t0
       /\ automations (fst created) !! id a = Some a
       /\ name a = "sample"
       /\ conditions a = or_empty None
       /\ dict_get daily_trigger "type"
          = Some (PyStr (TriggerType_value (trigger_type (trigger a))))
       /\ dict_get daily_trigger "condition" = Some (trigger_condition (trigger a))
       /\ trigger_parameters (trigger a)
          = dict_get_default daily_trigger "parameters" (PyDict [])
       /\ Forall2 (fun action_data act =>
                     dict_get action_data "type"
                     = Some (PyStr (ActionType_value (action_type act)))
                     /\ dict_get action_data "parameters"
                        = Some (action_parameters act)
                     /\ action_service act
                        = dict_get_default action_data "service" (PyStr "auto")
                     /\ delay_seconds act
                        = dict_get_default action_data "delay_seconds" (PyInt 0))
                  request (actions a).
Proof.
  split; [reflexivity |].
  eapply (create_stores_the_request t0 (t0 + 7) "sample" daily_trigger _ None
            empty_engine).
  reflexivity.
Defined.

Lemma create_raises_with_actions now_id now_created new_name trig acts conds st e :
  trigger_acceptable trig ->
  parse_actions acts = Raise e ->
  create_automation now_id now_created new_name trig acts conds st
  = (st, Raise e).
Proof.
  unfold create_automation, parse_trigger, dict_subscript.
  intros (t & c & -> & ->) ->. simpl. by rewrite TriggerType_of_value.
Qed.

Lemma parse_actions_first_failure good action_data rest e :
  Forall action_acceptable good ->
  parse_action action_data = Raise e ->
  parse_actions (good ++ action_data :: rest) = Raise e.
Proof.
  intros Hgood He. induction Hgood as [| first good' Hfirst _ IH]; simpl.
  - by rewrite He.
  - apply parse_action_Ok in Hfirst as [obj ->]. simpl. by rewrite IH.
Qed.

(** X4. A request that lacks a required key, or names an unknown kind, is
    answered by the exception of the first lookup that fails: the trigger's
    [type], its kind, its [condition], then for each action in turn its
    [type], its kind, its [parameters].  The engine is left as it was. *)
Theorem create_first_failure_wins now_id now_created new_name trig acts conds st :
  (dict_get trig "type" = None ->
   create_automation now_id now_created new_name trig acts conds st
   = (st, Raise (KeyError "type")))
  /\ (forall v e,
        dict_get trig "type" = Some v ->
        TriggerType_of v = Raise e ->
        create_automation now_id now_created new_name trig acts conds st
        = (st, Raise (ValueError v "TriggerType")))
  /\ (forall t,
        dict_get trig "type" = Some (PyStr (TriggerType_value t)) ->
        dict_get trig "condition" = None ->
        create_automation now_id now_created new_name trig acts conds st
        = (st, Raise (KeyError "condition")))
  /\ (forall good action_data rest,
        trigger_acceptable trig ->
        acts = (good ++ action_data :: rest)%list ->
        Forall action_acceptable good ->
        (dict_get action_data "type" = None ->
         create_automation now_id now_created new_name trig acts conds st
         = (st, Raise (KeyError "type")))
        /\ (forall v e,
              dict_get action_data "type" = Some v ->
              ActionType_of v = Raise e ->
              create_automation now_id now_created new_name trig acts conds st
              = (st, Raise (ValueError v "ActionType")))
        /\ (forall t,
              dict_get action_data "type" = Some (PyStr (ActionType_value t)) ->
              dict_get action_data "parameters" = None ->
              create_automation now_id now_created new_name trig acts conds st
              = (st, Raise (KeyError "parameters")))).
Proof.
  split; [| split; [| split]].
  - unfold create_automation, parse_trigger, dict_subscript. by intros ->.
  - unfold create_automation, parse_trigger, dict_subscript.
    intros v e -> Hv. simpl. unfold TriggerType_of, enum_by_value in *.
    destruct (List.find _ _); [discriminate | reflexivity].
  - unfold create_automation, parse_trigger, dict_subscript.
    intros t -> ->. simpl. by rewrite TriggerType_of_value.
  - intros good action_data rest Htrig -> Hgood.
    assert (Hraise : forall e, parse_action action_data = Raise e ->
              create_automation now_id now_created new_name trig
                (good ++ action_data :: rest) conds st = (st, Raise e)).
    { intros e He. apply create_raises_with_actions; [exact Htrig |].
      by apply parse_actions_first_failure. }
    unfold parse_action, dict_subscript in Hraise.
    split; [intros Hty; apply Hraise; by rewrite Hty |].
    split.
    + intros v e Hty Hv. apply Hraise. rewrite Hty. simpl.
      unfold ActionType_of, enum_by_value in *.
      destruct (List.find _ _); [discriminate | reflexivity].
    + intros t Hty Hp. apply Hraise. rewrite Hty, Hp. simpl.
      by rewrite ActionType_of_value.
Qed.

(** ** Operations on one id *)

Section LifecycleFacts.
Context {SM : ServiceManager}.

(** X5. On an id the catalog does not hold, enable, disable, delete and
    trigger all answer "Automation not found" and return the engine as it
    was. *)
Theorem unknown_id_is_not_found st k context now_exec now_run :
  automations st !! k = None ->
  enable_automation k st = (st, NotFoundError)
  /\ disable_automation k st = (st, NotFoundError)
  /\ delete_automation k st = (st, NotFoundError)
  /\ trigger_automation now_exec now_run k context st = (st, NotFoundError).
Proof.
  intros Hk.
  unfold enable_automation, disable_automation, delete_automation,
    trigger_automation.
  by rewrite Hk.
Qed.

(** X6. Deleting a stored automation answers with its name, removes that id
    and no other, and makes the catalog one entry smaller; from then on the
    id is unknown, so a second delete, or a trigger, is answered "not
    found". *)
Theorem delete_removes_only_its_id st k a context now_exec now_run :
  automations st !! k = Some a ->
  let st' := fst (delete_automation k st) in
  snd (delete_automation k st)
  = Success ("Automation '" +:+ name a +:+ "' deleted")
  /\ automations st' !! k = None
  /\ (forall k', k' <> k -> automations st' !! k' = automations st !! k')
  /\ S (size (automations st')) = size (automations st)
  /\ trace st' = trace st
  /\ delete_automation k st' = (st', NotFoundError)
  /\ trigger_automation now_exec now_run k context st' = (st', NotFoundError).
Proof.
  intros Hk. cbv zeta.
  assert (Hgone : automations (fst (delete_automation k st)) !! k = None).
  { unfold delete_automation. rewrite Hk. apply lookup_delete_eq. }
  split; [unfold delete_automation; by rewrite Hk |].
  split; [exact Hgone |].
  split.
  { intros k' Hne. unfold delete_automation. rewrite Hk.
    by apply lookup_delete_ne. }
  split.
  { unfold delete_automation. rewrite Hk. cbn [fst automations].
    rewrite map_size_delete, Hk.
    assert (size (automations st) <> 0%nat); [| lia].
    intros Hsize. apply map_size_empty_iff in Hsize.
    rewrite Hsize in Hk. by rewrite lookup_empty in Hk. }
  split; [unfold delete_automation; by rewrite Hk |].
  unfold delete_automation at 1, trigger_automation. by rewrite Hgone.
Qed.

Lemma schedule_clear_twice k js :
  schedule_clear k (schedule_clear k js) = schedule_clear k js.
Proof.
  unfold schedule_clear. induction js as [| j rest IH]; [reflexivity |].
  simpl. destruct (negb (has_tag k j)) eqn:Htag; simpl; [| exact IH].
  by rewrite Htag, IH.
Qed.

(** X7. Disabling is idempotent: disabling an automation a second time
    gives the same reply and the same engine (catalog, timers and trace) as
    disabling it once. *)
Theorem disable_twice_is_disable_once st k :
  disable_automation k (fst (disable_automation k st))
  = disable_automation k st.
Proof.
  unfold disable_automation at 2 3.
  destruct (automations st !! k) as [a |] eqn:Hk.
  - unfold disable_automation. cbn [fst automations jobs trace].
    rewrite lookup_insert_eq, insert_insert_eq. cbn [set_enabled trigger name].
    destruct (trigger_type (trigger a)); by rewrite ?schedule_clear_twice.
  - unfold disable_automation. cbn [fst]. by rewrite Hk.
Qed.

Lemma enable_lookup st k a :
  automations st !! k = Some a ->
  automations (fst (enable_automation k st)) !! k = Some (set_enabled true a).
Proof.
  intros Hk. unfold enable_automation. rewrite Hk. apply lookup_insert_eq.
Qed.

Lemma enable_timers st k a :
  automations st !! k = Some a ->
  id a = k ->
  length (timers_of k (jobs (fst (enable_automation k st))))
  = (length (timers_of k (jobs st)) + timers_armed a)%nat.
Proof.
  intros Hk Hid. unfold enable_automation. rewrite Hk. cbn [fst jobs].
  pose proof (timers_of_schedule_same (set_enabled true a) (jobs st)) as Hlen.
  cbn [set_enabled id] in Hlen. rewrite Hid in Hlen.
  destruct (trigger_type (trigger (set_enabled true a))) eqn:Hty;
    [exact Hlen | ..];
    unfold timers_armed; cbn [set_enabled trigger] in Hty; rewrite Hty; lia.
Qed.

(** X8. Enabling is not idempotent on timers: every call of
    [enable_automation] on a stored automation adds as many timers under its
    id as [_schedule_automation] arms (one for a time-based automation with a
    schedule string of the table), so [n] calls in a row add [n] times that
    many, and the automation is enabled after the first. *)
Theorem enable_adds_a_timer_each_time st k a n :
  automations st !! k = Some a ->
  id a = k ->
  let st_n := Nat.iter n (fun s => fst (enable_automation k s)) st in
  length (timers_of k (jobs st_n))
  = (length (timers_of k (jobs st)) + n * timers_armed a)%nat
  /\ automations st_n !! k
     = Some (if decide (n = 0%nat) then a else set_enabled true a).
Proof.
  intros Hk Hid. cbv zeta. induction n as [| n [IHlen IHk]].
  - simpl. split; [lia | done].
  - rewrite Nat.iter_succ. set (st_n := Nat.iter n _ st) in *.
    assert (Hn : exists a_n, automations st_n !! k = Some a_n
                             /\ id a_n = k
                             /\ timers_armed a_n = timers_armed a
                             /\ set_enabled true a_n = set_enabled true a).
    { eexists. split; [exact IHk |]. by case_decide. }
    destruct Hn as (a_n & Hk_n & Hid_n & Harmed & Hset).
    split.
    + rewrite (enable_timers _ _ _ Hk_n Hid_n), IHlen, Harmed. lia.
    + rewrite (enable_lookup _ _ _ Hk_n), Hset. done.
Qed.

End LifecycleFacts.

Lemma unknown_id_is_not_found_witness :
  automations empty_engine !! "auto_0" = None
  /\ enable_automation "auto_0" empty_engine = (empty_engine, NotFoundError)
  /\ disable_automation "auto_0" empty_engine = (empty_engine, NotFoundError)
  /\ delete_automation "auto_0" empty_engine = (empty_engine, NotFoundError)
  /\ trigger_automation (SM := async_service_manager) t0 t0 "auto_0" None
       empty_engine
     = (empty_engine, NotFoundError).
Proof.
  split; [reflexivity |].
  apply (unknown_id_is_not_found (SM := async_service_manager)). reflexivity.
Defined.

Lemma delete_removes_only_its_id_witness :
  let st := engine_with daily_trigger [plan_task] [] in
  let st' := fst (delete_automation sample_id st) in
  exists a,
    automations st !! sample_id = Some a
    /\ snd (delete_automation sample_id st)
       = Success ("Automation '" +:+ name a +:+ "' deleted")
    /\ automations st' !! sample_id = None
    /\ (forall k', k' <> sample_id ->
                   automations st' !! k' = automations st !! k')
    /\ S (size (automations st')) = size (automations st)
    /\ trace st' = trace st
    /\ delete_automation sample_id st' = (st', NotFoundError)
    /\ trigger_automation (SM := async_service_manager) t0 t0 sample_id None st'
       = (st', NotFoundError).
Proof.
  eexists. split; [reflexivity |].
  apply (delete_removes_only_its_id (SM := async_service_manager)
           (engine_with daily_trigger [plan_task] []) sample_id _ None t0 t0).
  reflexivity.
Defined.

Lemma enable_adds_a_timer_each_time_witness :
  let st := engine_with daily_trigger [plan_task] [] in
  let st_3 := Nat.iter 3 (fun s => fst (enable_automation sample_id s)) st in
  exists a,
    automations st !! sample_id = Some a
    /\ id a = sample_id
    /\ timers_armed a = 1%nat
    /\ length (timers_of sample_id (jobs st)) = 1%nat
    /\ length (timers_of sample_id (jobs st_3))
       = (length (timers_of sample_id (jobs st)) + 3 * timers_armed a)%nat
    /\ automations st_3 !! sample_id
       = Some (if decide (3%nat = 0%nat) then a else set_enabled true a).
Proof.
  eexists. do 4 (split; [reflexivity |]).
  apply (enable_adds_a_timer_each_time
           (engine_with daily_trigger [plan_task] []) sample_id _ 3);
    reflexivity.
Defined.

(** ** What holds of every reachable engine *)

Lemma job_from_table_schedule automation js :
  Forall job_from_table js ->
  Forall job_from_table (_schedule_automation automation js).
Proof.
  intros Hjs. rewrite schedule_automation_appends. apply Forall_app.
  split; [exact Hjs |].
  destruct (trigger_type (trigger automation)) eqn:Hty; try constructor.
  destruct (recognised_schedule _) as [[[n u] at_time] |] eqn:Hrec;
    constructor; [| constructor].
  by repeat split.
Qed.

Lemma job_from_table_clear k js :
  Forall job_from_table js -> Forall job_from_table (schedule_clear k js).
Proof.
  intros Hjs. unfold schedule_clear. induction Hjs as [| j rest Hj _ IH]; simpl.
  - constructor.
  - destruct (negb (has_tag k j)); [by constructor | exact IH].
Qed.

Lemma has_tag_from_table k j :
  job_from_table j -> has_tag k j = String.eqb k (id (job_target j)).
Proof.
  intros [Htags _]. unfold has_tag. rewrite Htags. simpl. apply orb_false_r.
Qed.

Lemma timers_of_clear_other k k' js :
  Forall job_from_table js ->
  k' <> k ->
  timers_of k' (schedule_clear k js) = timers_of k' js.
Proof.
  intros Hjs Hne. unfold timers_of, schedule_clear.
  induction Hjs as [| j rest Hj _ IH]; [reflexivity |].
  simpl. rewrite !(has_tag_from_table _ _ Hj).
  destruct (String.eqb k (id (job_target j))) eqn:Hk; simpl.
  - apply String.eqb_eq in Hk. subst k.
    destruct (String.eqb k' (id (job_target j))) eqn:Hk'; [| exact IH].
    apply String.eqb_eq in Hk'. congruence.
  - rewrite (has_tag_from_table _ _ Hj).
    destruct (String.eqb k' (id (job_target j))); by rewrite IH.
Qed.

Section MoreInvariants.
Context {SM : ServiceManager}.

Lemma step_jobs_from_table st st' :
  step st st' -> Forall job_from_table (jobs st) -> Forall job_from_table (jobs st').
Proof.
  intros Hstep Hjobs.
  assert (Hcreate : forall now_id now_created new_name trig acts conds,
            Forall job_from_table
              (jobs (fst (create_automation now_id now_created new_name trig
                            acts conds st)))).
  { intros. destruct (create_automation now_id now_created new_name trig acts conds st)
      as [st1 [r | e]] eqn:Hc; cbn [fst].
    - apply create_automation_stored in Hc as (a & _ & _ & _ & _ & _ & _ & _ & ->).
      by apply job_from_table_schedule.
    - apply create_raise_leaves_engine in Hc. by subst. }
  destruct Hstep.
  - apply Hcreate.
  - unfold create_from_template.
    destruct (registry_lookup templates template_name); [apply Hcreate | exact Hjobs].
  - unfold enable_automation.
    destruct (automations st !! k) as [a0 |]; [| exact Hjobs]. cbn [fst jobs].
    destruct (trigger_type _); by try apply job_from_table_schedule.
  - unfold disable_automation.
    destruct (automations st !! k) as [a0 |]; [| exact Hjobs]. cbn [fst jobs].
    destruct (trigger_type _); by try apply job_from_table_clear.
  - unfold delete_automation.
    destruct (automations st !! k) as [a0 |]; [| exact Hjobs]. cbn [fst jobs].
    destruct (trigger_type _); by try apply job_from_table_clear.
  - unfold trigger_automation.
    destruct (automations st !! k) as [a0 |]; [| exact Hjobs].
    destruct (negb (enabled a0)); [exact Hjobs |].
    destruct (negb (_check_conditions _ _)); [exact Hjobs |].
    by destruct (_execute_automation a0 (or_empty context) now_exec (trace st)).
  - by destruct (run_pending_automations due now st) as [_ ->].
Qed.

Lemma reachable_jobs_from_table st :
  reachable st -> Forall job_from_table (jobs st).
Proof.
  induction 1 as [| st st' _ IH Hstep]; [constructor |].
  by eapply step_jobs_from_table.
Qed.

Lemma consistent_set_enabled k a b :
  consistent_record k a -> consistent_record k (set_enabled b a).
Proof. intros H. exact H. Qed.

Lemma consistent_record_run k a now :
  consistent_record k a -> consistent_record k (record_run now a).
Proof.
  intros (Hid & Hdesc & Hcount & Hlast & Hrate).
  unfold consistent_record. cbn [record_run id description name run_count
                                  last_run success_rate].
  repeat split; try done; try lia.
Qed.

Lemma create_consistent now_id now_created new_name trig acts conds st :
  map_Forall consistent_record (automations st) ->
  map_Forall consistent_record
    (automations (fst (create_automation now_id now_created new_name trig acts
                         conds st))).
Proof.
  intros Hall. unfold create_automation.
  destruct (bind (parse_trigger trig) _) as [[trigger_obj action_objs] | e];
    [| exact Hall].
  cbn [fst automations]. apply map_Forall_insert_2; [| exact Hall].
  by repeat split.
Qed.

Lemma step_consistent st st' :
  step st st' ->
  map_Forall consistent_record (automations st) ->
  map_Forall consistent_record (automations st').
Proof.
  intros Hstep Hall. destruct Hstep.
  - by apply create_consistent.
  - unfold create_from_template.
    destruct (registry_lookup templates template_name); [| exact Hall].
    by apply create_consistent.
  - unfold enable_automation.
    destruct (automations st !! k) as [a0 |] eqn:Hk; [| exact Hall].
    apply map_Forall_insert_2; [| exact Hall].
    apply consistent_set_enabled. by apply Hall.
  - unfold disable_automation.
    destruct (automations st !! k) as [a0 |] eqn:Hk; [| exact Hall].
    apply map_Forall_insert_2; [| exact Hall].
    apply consistent_set_enabled. by apply Hall.
  - unfold delete_automation.
    destruct (automations st !! k) as [a0 |] eqn:Hk; [| exact Hall].
    by apply map_Forall_delete.
  - unfold trigger_automation.
    destruct (automations st !! k) as [a0 |] eqn:Hk; [| exact Hall].
    destruct (negb (enabled a0)); [exact Hall |].
    destruct (negb (_check_conditions _ _)); [exact Hall |].
    destruct (_execute_automation a0 (or_empty context) now_exec (trace st)).
    apply map_Forall_insert_2; [| exact Hall].
    apply consistent_record_run. by apply Hall.
  - by destruct (run_pending_automations due now st) as [-> _].
Qed.

Lemma reachable_consistent st :
  reachable st -> map_Forall consistent_record (automations st).
Proof.
  induction 1 as [| st st' _ IH Hstep]; [apply map_Forall_empty |].
  by eapply step_consistent.
Qed.

(** X9. In every engine reached by the public operations and worker ticks,
    each stored automation sits under its own id, has the description
    ["Custom automation: " + name], a run count that is never negative and
    is 0 exactly while [last_run] is unset, and the success rate 1.0 it was
    created with. *)
Theorem stored_records_stay_consistent st k a :
  reachable st ->
  automations st !! k = Some a ->
  id a = k
  /\ description a = "Custom automation: " +:+ name a
  /\ 0 <= run_count a
  /\ (last_run a = None <-> run_count a = 0)
  /\ success_rate a = 1%Q.
Proof.
  intros Hreach Hk. by apply (reachable_consistent st Hreach k a).
Qed.

(** X10. In every reachable engine, each pending timer runs a time-based
    automation whose schedule string is one of the four of the table, has
    the interval, unit and time of day the table gives for that string, and
    carries the automation's id as its only tag. *)
Theorem timers_come_from_the_table st j :
  reachable st ->
  In j (jobs st) ->
  job_tags j = [id (job_target j)]
  /\ trigger_type (trigger (job_target j)) = TIME_BASED
  /\ exists s,
       trigger_condition (trigger (job_target j)) = PyStr s
       /\ In s supported_schedules
       /\ registry_lookup schedule_table s
          = Some (job_interval j, job_unit j, job_at_time j).
Proof.
  intros Hreach Hin.
  pose proof (reachable_jobs_from_table st Hreach) as Hall.
  rewrite List.Forall_forall in Hall.
  destruct (Hall j Hin) as (Htags & Hty & Hrec).
  split; [exact Htags |]. split; [exact Hty |].
  assert (Hs : is_Some (recognised_schedule
                          (trigger_condition (trigger (job_target j)))))
    by (rewrite Hrec; eauto).
  apply recognised_schedule_Some in Hs as (s & Hc & Hs).
  exists s. rewrite Hc in Hrec. by repeat split.
Qed.

(** X11. An operation on one id leaves every other id alone: after enable,
    disable, delete or trigger of [k], or a create that is given the id [k],
    any other id is stored (or absent) exactly as before and has the same
    timers as before. *)
Theorem other_ids_are_untouched st k k' :
  reachable st ->
  k' <> k ->
  (automations (fst (enable_automation k st)) !! k' = automations st !! k'
   /\ timers_of k' (jobs (fst (enable_automation k st))) = timers_of k' (jobs st))
  /\ (automations (fst (disable_automation k st)) !! k' = automations st !! k'
      /\ timers_of k' (jobs (fst (disable_automation k st)))
         = timers_of k' (jobs st))
  /\ (automations (fst (delete_automation k st)) !! k' = automations st !! k'
      /\ timers_of k' (jobs (fst (delete_automation k st)))
         = timers_of k' (jobs st))
  /\ (forall now_exec now_run context,
        let st' := fst (trigger_automation now_exec now_run k context st) in
        automations st' !! k' = automations st !! k'
        /\ timers_of k' (jobs st') = timers_of k' (jobs st))
  /\ (forall now_id now_created new_name trig acts conds,
        automation_id_at now_id = k ->
        let st' := fst (create_automation now_id now_created new_name trig acts
                          conds st) in
        automations st' !! k' = automations st !! k'
        /\ timers_of k' (jobs st') = timers_of k' (jobs st)).
Proof.
  intros Hreach Hne.
  destruct (reachable_keyed_quiet st Hreach) as [Hkeyed _].
  pose proof (reachable_jobs_from_table st Hreach) as Hjobs.
  assert (Hne' : k <> k') by congruence.
  split; [| split; [| split; [| split]]].
  - unfold enable_automation.
    destruct (automations st !! k) as [a0 |] eqn:Hk; [| done].
    cbn [fst automations jobs]. split; [by apply lookup_insert_ne |].
    destruct (trigger_type _); try done.
    apply timers_of_schedule_other. cbn [set_enabled id].
    by rewrite (Hkeyed _ _ Hk).
  - unfold disable_automation.
    destruct (automations st !! k) as [a0 |] eqn:Hk; [| done].
    cbn [fst automations jobs]. split; [by apply lookup_insert_ne |].
    destruct (trigger_type _); try done. by apply timers_of_clear_other.
  - unfold delete_automation.
    destruct (automations st !! k) as [a0 |] eqn:Hk; [| done].
    cbn [fst automations jobs]. split; [by apply lookup_delete_ne |].
    destruct (trigger_type _); try done. by apply timers_of_clear_other.
  - intros now_exec now_run context. cbv zeta. unfold trigger_automation.
    destruct (automations st !! k) as [a0 |] eqn:Hk; [| done].
    destruct (negb (enabled a0)); [done |].
    destruct (negb (_check_conditions _ _)); [done |].
    destruct (_execute_automation a0 (or_empty context) now_exec (trace st)).
    cbn [fst automations jobs]. split; [by apply lookup_insert_ne | done].
  - intros now_id now_created new_name trig acts conds Hid. cbv zeta.
    destruct (create_automation now_id now_created new_name trig acts conds st)
      as [st1 [r | e]] eqn:Hc; cbn [fst].
    + apply create_automation_stored in Hc
        as (a & _ & Hida & -> & _ & _ & _ & _ & ->).
      rewrite Hid in Hida.
      split; [apply lookup_insert_ne | apply timers_of_schedule_other];
        congruence.
    + apply create_raise_leaves_engine in Hc. by subst.
Qed.

End MoreInvariants.

Lemma engine_with_reachable {SM : ServiceManager} trig acts conds :
  reachable (engine_with trig acts conds).
Proof.
  eapply reachable_step; [apply reachable_init |].
  unfold engine_with. apply step_create.
Qed.

Lemma stored_records_stay_consistent_witness :
  let st := fst (trigger_automation (SM := async_service_manager)
                   (t0 + 1) (t0 + 2) sample_id (Some working)
                   (engine_with daily_trigger [plan_task] ["work_mode"])) in
  exists a,
    reachable (SM := async_service_manager) st
    /\ automations st !! sample_id = Some a
    /\ run_count a = 1
    /\ id a = sample_id
    /\ description a = "Custom automation: " +:+ name a
    /\ 0 <= run_count a
    /\ (last_run a = None <-> run_count a = 0)
    /\ success_rate a = 1%Q.
Proof.
  assert (Hreach : reachable (SM := async_service_manager)
            (fst (trigger_automation (SM := async_service_manager)
                    (t0 + 1) (t0 + 2) sample_id (Some working)
                    (engine_with daily_trigger [plan_task] ["work_mode"])))).
  { eapply reachable_step; [apply engine_with_reachable | apply step_trigger]. }
  eexists. split; [exact Hreach |]. split; [reflexivity |].
  split; [reflexivity |].
  apply (stored_records_stay_consistent (SM := async_service_manager) _
           sample_id _ Hreach).
  reflexivity.
Defined.

Lemma timers_come_from_the_table_witness :
  let st := engine_with daily_trigger [plan_task] [] in
  exists j,
    reachable (SM := async_service_manager) st
    /\ In j (jobs st)
    /\ job_tags j = [id (job_target j)]
    /\ trigger_type (trigger (job_target j)) = TIME_BASED
    /\ exists s,
         trigger_condition (trigger (job_target j)) = PyStr s
         /\ In s supported_schedules
         /\ registry_lookup schedule_table s
            = Some (job_interval j, job_unit j, job_at_time j).
Proof.
  eexists. split; [apply engine_with_reachable |].
  split; [left; reflexivity |].
  apply (timers_come_from_the_table (SM := async_service_manager)
           (engine_with daily_trigger [plan_task] [])).
  - apply engine_with_reachable.
  - left. reflexivity.
Defined.

Lemma other_ids_are_untouched_witness :
  let st := engine_with daily_trigger [plan_task] [] in
  let k := "auto_1700000009" in
  let k' := sample_id in
  reachable (SM := async_service_manager) st
  /\ k' <> k
  /\ (automations (fst (enable_automation k st)) !! k' = automations st !! k'
      /\ timers_of k' (jobs (fst (enable_automation k st)))
         = timers_of k' (jobs st))
  /\ (automations (fst (disable_automation k st)) !! k' = automations st !! k'
      /\ timers_of k' (jobs (fst (disable_automation k st)))
         = timers_of k' (jobs st))
  /\ (automations (fst (delete_automation k st)) !! k' = automations st !! k'
      /\ timers_of k' (jobs (fst (delete_automation k st)))
         = timers_of k' (jobs st))
  /\ (forall now_exec now_run context,
        let st' := fst (trigger_automation (SM := async_service_manager)
                          now_exec now_run k context st) in
        automations st' !! k' = automations st !! k'
        /\ timers_of k' (jobs st') = timers_of k' (jobs st))
  /\ (forall now_id now_created new_name trig acts conds,
        automation_id_at now_id = k ->
        let st' := fst (create_automation now_id now_created new_name trig acts
                          conds st) in
        automations st' !! k' = automations st !! k'
        /\ timers_of k' (jobs st') = timers_of k' (jobs st)).
Proof.
  split; [apply engine_with_reachable |]. split; [discriminate |].
  apply (other_ids_are_untouched (SM := async_service_manager)
           (engine_with daily_trigger [plan_task] [])
           "auto_1700000009" sample_id).
  - apply engine_with_reachable.
  - discriminate.
Defined.

(** A second create nine seconds later gets an id of its own and leaves the
    first automation and its timer in place. *)
Example second_create_keeps_the_first :
  let st := engine_with daily_trigger [plan_task] [] in
  let st' := fst (create_automation (t0 + 9000000) (t0 + 9000001) "later"
                    daily_trigger [log_action] None st) in
  (name <$> automations st' !! sample_id) = Some "sample"
  /\ (name <$> automations st' !! "auto_1700000009") = Some "later"
  /\ length (timers_of sample_id (jobs st')) = 1%nat
  /\ length (timers_of "auto_1700000009" (jobs st')) = 1%nat.
Proof. vm_compute. repeat split; reflexivity. Qed.

(** ** One action against the service manager *)

Section ActionFacts.
Context {SM : ServiceManager}.

(** The three ways [_execute_action] can go. *)
Lemma execute_action_cases action context tr :
  (parameters_ready action = false
   /\ exists e, _execute_action action context tr = (tr, Raise e))
  \/ (parameters_ready action = true
      /\ answered_locally (action_type action) = true
      /\ exists out,
           _execute_action action context tr = (tr, Ok out)
           /\ (action_type action = CUSTOM_SCRIPT
               -> out = UnknownAction CUSTOM_SCRIPT))
  \/ (parameters_ready action = true
      /\ answered_locally (action_type action) = false
      /\ exists c,
           _execute_action action context tr = call_service tr c
           /\ (action_type action = SEND_EMAIL
               -> exists m r, c = send_message m r (PyStr "email"))
           /\ (action_type action = SEND_MESSAGE
               -> exists m r, c = send_message m r (action_service action))
           /\ match c with
              | update_task _ _ => action_type action = UPDATE_TASK
              | _ => action_type action <> UPDATE_TASK
              end
           /\ method_called (action_type action) = Some (method_name c)).
Proof.
  destruct action as [t p s d].
  unfold _execute_action, parameters_ready, _replace_placeholders, has_key.
  cbn [action_type action_parameters action_service].
  unfold py_subscript, py_get, dict_subscript, dict_get_default, bind.
  destruct t; destruct p as [| | | | | dict |];
    cbn [reads_parameters subscripted_keys forallb answered_locally];
    repeat match goal with
           | |- context [dict_get dict ?k] =>
               destruct (dict_get dict k) eqn:?; cbn [andb]
           end;
    first
      [ left; split; [reflexivity | eexists; reflexivity]
      | right; left; split; [reflexivity |]; split; [reflexivity |];
        eexists; split; [reflexivity | intros; first [done | reflexivity]]
      | right; right; split; [reflexivity |]; split; [reflexivity |];
        eexists; split; [reflexivity |];
        split; [intros; first [done | eauto] |];
        split; [intros; first [done | eauto] | done] ].
Qed.

Lemma calls_in_app tr tr' : calls_in (tr ++ tr') = (calls_in tr ++ calls_in tr')%list.
Proof. apply omap_app. Qed.

Lemma sleeps_in_app tr tr' :
  sleeps_in (tr ++ tr') = (sleeps_in tr ++ sleeps_in tr')%list.
Proof. apply omap_app. Qed.

(** What one turn of the loop does, by readiness and kind. *)
Lemma run_action_cases action context tr :
  let tr_s := if sleeps_first action
              then (tr ++ [EvSleep (delay_seconds action)])%list else tr in
  (action_ready action = false
   /\ result_success (snd (run_action action context tr)) = false
   /\ fst (run_action action context tr)
      = (if delay_ready action then tr_s else tr))
  \/ (action_ready action = true
      /\ answered_locally (action_type action) = true
      /\ result_success (snd (run_action action context tr)) = true
      /\ fst (run_action action context tr) = tr_s
      /\ (action_type action = CUSTOM_SCRIPT
          -> result_payload (snd (run_action action context tr))
             = inl (UnknownAction CUSTOM_SCRIPT)))
  \/ (action_ready action = true
      /\ answered_locally (action_type action) = false
      /\ exists c,
           fst (run_action action context tr) = (tr_s ++ [EvCall c])%list
           /\ result_payload (snd (run_action action context tr))
              = match service_call tr_s c with
                | Ok v => inl (ServiceReply v)
                | Raise e => inr e
                end
           /\ result_success (snd (run_action action context tr))
              = match service_call tr_s c with
                | Ok _ => true
                | Raise _ => false
                end
           /\ (action_type action = SEND_EMAIL
               -> exists m r, c = send_message m r (PyStr "email"))
           /\ (action_type action = SEND_MESSAGE
               -> exists m r, c = send_message m r (action_service action))
           /\ match c with
              | update_task _ _ => action_type action = UPDATE_TASK
              | _ => action_type action <> UPDATE_TASK
              end
           /\ method_called (action_type action) = Some (method_name c)).
Proof.
  cbv zeta. unfold run_action, attempt_action, action_ready, delay_ready,
    sleeps_first.
  destruct (py_gt_zero (delay_seconds action)) as [b | e];
    [| left; by repeat split].
  cbn [andb].
  destruct b;
    match goal with
    | |- context [_execute_action action context ?t] =>
        destruct (execute_action_cases action context t)
          as [[Hready [e Heq]]
             | [(Hready & Hlocal & out & Heq & Hout)
               | (Hready & Hlocal & c & Heq & Hemail & Hmsg & Hkind & Hmethod)]]
    end;
    rewrite Heq, Hready.
  1, 4: left; by repeat split.
  1, 3: right; left; repeat split; try done;
        intros Hty; cbn; by rewrite Hout.
  all: right; right; repeat split; try done; exists c; unfold call_service;
    destruct (service_call _ c); by repeat split.
Qed.

End ActionFacts.

Section ActionTheorems.
Context {SM : ServiceManager}.

Lemma calls_in_sleep tr action :
  calls_in (if sleeps_first action
            then (tr ++ [EvSleep (delay_seconds action)])%list else tr)
  = calls_in tr.
Proof.
  destruct (sleeps_first action); [| reflexivity].
  rewrite calls_in_app. simpl. apply app_nil_r.
Qed.

Lemma sleeps_in_sleep tr action :
  sleeps_in (if sleeps_first action
             then (tr ++ [EvSleep (delay_seconds action)])%list else tr)
  = (sleeps_in tr
     ++ if sleeps_first action then [delay_seconds action] else [])%list.
Proof.
  destruct (sleeps_first action); [apply sleeps_in_app |].
  symmetry. apply app_nil_r.
Qed.

Lemma not_delay_ready_no_sleep action :
  delay_ready action = false -> sleeps_first action = false.
Proof.
  unfold delay_ready, sleeps_first.
  by destruct (py_gt_zero (delay_seconds action)) as [[|] |].
Qed.

(** X12. An action that is not ready (its delay cannot be compared with 0,
    or its parameters are not a dictionary holding every key its kind reads
    by subscript) is recorded as failed, and the service manager is not
    called for it. *)
Theorem unready_action_fails_before_the_service action context tr :
  action_ready action = false ->
  result_success (snd (run_action action context tr)) = false
  /\ calls_in (fst (run_action action context tr)) = calls_in tr.
Proof.
  intros Hready.
  destruct (run_action_cases action context tr)
    as [(_ & Hfail & Htr) | [(Hr & _) | (Hr & _)]]; try congruence.
  split; [exact Hfail |]. rewrite Htr.
  destruct (delay_ready action); [apply calls_in_sleep | reflexivity].
Qed.

(** X13. A ready action of a kind the engine answers by itself
    ([play_music], [set_reminder], [log_activity], [custom_script]), with a
    delay [time.sleep] accepts, is recorded as a success without any call to
    the service manager; for [custom_script] that success carries the
    "unknown action type" reply. *)
Theorem local_action_succeeds_without_the_service action context tr :
  action_ready action = true ->
  sleep_returns action = true ->
  answered_locally (action_type action) = true ->
  result_success (snd (run_action action context tr)) = true
  /\ calls_in (fst (run_action action context tr)) = calls_in tr
  /\ (action_type action = CUSTOM_SCRIPT ->
      result_payload (snd (run_action action context tr))
      = inl (UnknownAction CUSTOM_SCRIPT)).
Proof.
  intros Hready _ Hlocal.
  destruct (run_action_cases action context tr)
    as [(Hr & _) | [(_ & _ & Hok & Htr & Hcustom) | (_ & Hl & _)]];
    try congruence.
  split; [exact Hok |]. split; [| exact Hcustom].
  rewrite Htr. apply calls_in_sleep.
Qed.

(** X14. Against a service manager that has the method the action's kind
    calls, a ready action of any kind the engine does not answer by itself,
    with a delay [time.sleep] accepts, makes exactly one call to the service
    manager, to that method and after its delay, and is recorded as a
    success exactly when that call returns; [send_email] always goes out on
    the channel ["email"], [send_message] on the action's own service. *)
Theorem service_action_calls_once action context tr :
  action_ready action = true ->
  sleep_returns action = true ->
  answered_locally (action_type action) = false ->
  (forall c,
     method_called (action_type action) = Some (method_name c) ->
     has_method c) ->
  let tr_s := if sleeps_first action
              then (tr ++ [EvSleep (delay_seconds action)])%list else tr in
  exists c,
    method_called (action_type action) = Some (method_name c)
    /\ fst (run_action action context tr) = (tr_s ++ [EvCall c])%list
    /\ calls_in (fst (run_action action context tr)) = (calls_in tr ++ [c])%list
    /\ result_success (snd (run_action action context tr))
       = match service_call tr_s c with
         | Ok _ => true
         | Raise _ => false
         end
    /\ (action_type action = SEND_EMAIL
        -> exists m r, c = send_message m r (PyStr "email"))
    /\ (action_type action = SEND_MESSAGE
        -> exists m r, c = send_message m r (action_service action)).
Proof.
  intros Hready _ Hlocal _. cbv zeta.
  destruct (run_action_cases action context tr)
    as [(Hr & _) | [(_ & Hl & _)
                   | (_ & _ & c & Htr & _ & Hok & Hemail & Hmsg & _ & Hmethod)]];
    try congruence.
  exists c. split; [exact Hmethod |]. split; [exact Htr |].
  split; [| by repeat split].
  rewrite Htr, calls_in_app, calls_in_sleep. reflexivity.
Qed.

(** The repository's manager has three of the four methods. *)
Lemma repository_manager_methods c :
  has_method (SM := repository_service_manager) c
  <-> method_name c <> "update_task".
Proof.
  unfold has_method, service_call, repository_service_manager.
  destruct c; cbn [method_name]; split; try done.
  all: intros H; try (by specialize (H [])); exfalso; by apply H.
Qed.

Lemma run_action_sleeps action context tr :
  sleeps_in (fst (run_action action context tr))
  = (sleeps_in tr
     ++ if sleeps_first action then [delay_seconds action] else [])%list.
Proof.
  destruct (run_action_cases action context tr)
    as [(_ & _ & Htr) | [(_ & _ & _ & Htr & _) | (_ & _ & c & Htr & _)]];
    rewrite Htr.
  - destruct (delay_ready action) eqn:Hd; [apply sleeps_in_sleep |].
    rewrite (not_delay_ready_no_sleep _ Hd). symmetry. apply app_nil_r.
  - apply sleeps_in_sleep.
  - rewrite sleeps_in_app, sleeps_in_sleep. simpl. apply app_nil_r.
Qed.

Lemma run_action_calls action context tr :
  exists cs,
    calls_in (fst (run_action action context tr)) = (calls_in tr ++ cs)%list
    /\ (length cs <= 1)%nat.
Proof.
  destruct (run_action_cases action context tr)
    as [(_ & _ & Htr) | [(_ & _ & _ & Htr & _) | (_ & _ & c & Htr & _)]];
    rewrite Htr.
  - exists []. rewrite app_nil_r. split; [| simpl; lia].
    destruct (delay_ready action); [apply calls_in_sleep | reflexivity].
  - exists []. rewrite app_nil_r. split; [apply calls_in_sleep | simpl; lia].
  - exists [c]. split; [| simpl; lia].
    by rewrite calls_in_app, calls_in_sleep.
Qed.

(** X15. A run calls [time.sleep] once for each action whose delay is
    greater than 0, in the order of the action list and with that delay,
    whether or not the action then succeeds, and never otherwise; it makes
    at most one service call per action. *)
Theorem run_sleeps_once_per_delayed_action automation context now tr :
  let tr' := fst (_execute_automation automation context now tr) in
  sleeps_in tr'
  = (sleeps_in tr
     ++ map delay_seconds (List.filter sleeps_first (actions automation)))%list
  /\ exists cs,
       calls_in tr' = (calls_in tr ++ cs)%list
       /\ (length cs <= length (actions automation))%nat.
Proof.
  cbv zeta. rewrite execute_automation_trace.
  generalize (actions automation). intros acts. revert tr.
  induction acts as [| action rest IH]; intros tr.
  - simpl. rewrite app_nil_r. split; [reflexivity |].
    exists []. by rewrite app_nil_r.
  - rewrite run_actions_cons. cbn [fst].
    destruct (IH (fst (run_action action context tr))) as (Hsl & cs & Hcs & Hlen).
    destruct (run_action_calls action context tr) as (c1 & Hc1 & Hlen1).
    split.
    + rewrite Hsl, run_action_sleeps, <- app_assoc. f_equal.
      simpl. by destruct (sleeps_first action).
    + exists (c1 ++ cs)%list. rewrite Hcs, Hc1, <- app_assoc.
      split; [reflexivity |]. rewrite length_app. simpl. lia.
Qed.

End ActionTheorems.

(** X16. Against the repository's own service manager an action (with a
    delay [time.sleep] accepts) is recorded as a success exactly when it is
    ready and is not an [update_task]: the manager has no [update_task]
    method, so that kind always fails, and the other calls return without
    doing anything. *)
Theorem repository_manager_outcomes action context tr :
  sleep_returns action = true ->
  result_success
    (snd (run_action (SM := repository_service_manager) action context tr))
  = action_ready action
    && match action_type action with
       | UPDATE_TASK => false
       | _ => true
       end.
Proof.
  intros _.
  destruct (run_action_cases (SM := repository_service_manager) action context tr)
    as [(Hr & Hfail & _)
       | [(Hr & Hlocal & Hok & _)
         | (Hr & Hlocal & c & _ & _ & Hok & _ & _ & Hkind & _)]];
    rewrite Hr.
  - exact Hfail.
  - rewrite Hok. by destruct (action_type action).
  - rewrite Hok. cbn [andb]. unfold service_call, repository_service_manager.
    destruct c; by destruct (action_type action).
Qed.

(** The deadline-alert template against the repository's manager: the
    message is recorded as sent, the task update as failed. *)
Example deadline_alert_update_always_fails :
  let st := fst (create_from_template t0 (t0 + 7) "deadline_alert" None
                   empty_engine) in
  exists a,
    automations st !! sample_id = Some a
    /\ map result_success
         (results (snd (_execute_automation (SM := repository_service_manager)
                          a [] t0 [])))
       = [true; false].
Proof. vm_compute. eexists. split; reflexivity. Qed.

Lemma unready_action_fails_before_the_service_witness :
  action_ready unready_email = false
  /\ result_success
       (snd (run_action (SM := async_service_manager) unready_email [] []))
     = false
  /\ calls_in (fst (run_action (SM := async_service_manager) unready_email [] []))
     = calls_in [].
Proof.
  split; [reflexivity |].
  apply (unready_action_fails_before_the_service (SM := async_service_manager)).
  reflexivity.
Defined.

Lemma local_action_succeeds_without_the_service_witness :
  action_ready script_action = true
  /\ sleep_returns script_action = true
  /\ answered_locally (action_type script_action) = true
  /\ result_success
       (snd (run_action (SM := failing_service_manager) script_action [] []))
     = true
  /\ calls_in (fst (run_action (SM := failing_service_manager) script_action [] []))
     = calls_in []
  /\ (action_type script_action = CUSTOM_SCRIPT ->
      result_payload
        (snd (run_action (SM := failing_service_manager) script_action [] []))
      = inl (UnknownAction CUSTOM_SCRIPT)).
Proof.
  do 3 (split; [reflexivity |]).
  apply (local_action_succeeds_without_the_service (SM := failing_service_manager));
    reflexivity.
Defined.

Lemma service_action_calls_once_witness :
  action_ready delayed_message = true
  /\ sleep_returns delayed_message = true
  /\ answered_locally (action_type delayed_message) = false
  /\ (forall c,
        method_called (action_type delayed_message) = Some (method_name c) ->
        has_method (SM := async_service_manager) c)
  /\ let tr_s := if sleeps_first delayed_message
                 then ([] ++ [EvSleep (delay_seconds delayed_message)])%list
                 else [] in
     exists c,
       method_called (action_type delayed_message) = Some (method_name c)
       /\ fst (run_action (SM := async_service_manager) delayed_message [] [])
          = (tr_s ++ [EvCall c])%list
       /\ calls_in (fst (run_action (SM := async_service_manager)
                           delayed_message [] []))
          = (calls_in [] ++ [c])%list
       /\ result_success
            (snd (run_action (SM := async_service_manager) delayed_message [] []))
          = match service_call (ServiceManager := async_service_manager) tr_s c with
            | Ok _ => true
            | Raise _ => false
            end
       /\ (action_type delayed_message = SEND_EMAIL
           -> exists m r, c = send_message m r (PyStr "email"))
       /\ (action_type delayed_message = SEND_MESSAGE
           -> exists m r, c = send_message m r (action_service delayed_message)).
Proof.
  assert (Hmethods : forall c,
            method_called (action_type delayed_message) = Some (method_name c) ->
            has_method (SM := async_service_manager) c).
  { intros c _ tr. discriminate. }
  do 3 (split; [reflexivity |]). split; [exact Hmethods |].
  apply (service_action_calls_once (SM := async_service_manager)
           delayed_message [] []);
    [reflexivity | reflexivity | reflexivity | exact Hmethods].
Defined.

Lemma repository_manager_outcomes_witness :
  sleep_returns delayed_message = true
  /\ result_success
       (snd (run_action (SM := repository_service_manager) delayed_message [] []))
     = action_ready delayed_message
       && match action_type delayed_message with
          | UPDATE_TASK => false
          | _ => true
          end.
Proof.
  split; [reflexivity |].
  apply (repository_manager_outcomes delayed_message [] []). reflexivity.
Defined.

(** The delayed message of the morning routine: slept for, then sent. *)
Example delayed_message_trace :
  fst (run_action (SM := async_service_manager) delayed_message [] [])
  = [EvSleep (PyInt 30);
     EvCall (send_message (PyStr "hello") (PyStr "self") (PyStr "slack"))].
Proof. reflexivity. Qed.

(** ** Who touches what *)

Section Footprints.
Context {SM : ServiceManager}.

Lemma run_action_extends action context tr :
  tr `prefix_of` fst (run_action action context tr).
Proof.
  destruct (run_action_cases action context tr)
    as [(_ & _ & Htr) | [(_ & _ & _ & Htr & _) | (_ & _ & c & Htr & _)]];
    rewrite Htr; repeat case_match;
    rewrite <- ?app_assoc; first [reflexivity | by apply prefix_app_r].
Qed.

Lemma run_actions_extends acts context tr :
  tr `prefix_of` fst (run_actions acts context tr).
Proof.
  revert tr. induction acts as [| action rest IH]; intros tr; [done |].
  rewrite run_actions_cons. cbn [fst].
  etrans; [apply run_action_extends | apply IH].
Qed.

Lemma run_job_extends now j st : trace st `prefix_of` trace (fst (run_job now j st)).
Proof. rewrite run_job_runs_actions. apply run_actions_extends. Qed.

Lemma run_pending_extends due now st :
  trace st `prefix_of` trace (run_pending due now st).
Proof.
  unfold run_pending. generalize (List.filter due (jobs st)). intros due_jobs.
  revert st. induction due_jobs as [| j rest IH]; intros st; [done |].
  simpl. etrans; [apply run_job_extends | apply IH].
Qed.

(** X17. Only runs act on the outside world, and only forwards.  Create,
    instantiation of a template, enable, disable and delete leave the trace
    of sleeps and service calls as it was; a manual trigger and a worker
    tick only append to it; and a trigger leaves the timers, a tick the
    timers and the catalog, as they were. *)
Theorem only_runs_extend_the_trace st k now now' :
  (forall new_name trig acts conds,
     trace (fst (create_automation now now' new_name trig acts conds st))
     = trace st)
  /\ (forall template_name custom,
        trace (fst (create_from_template now now' template_name custom st))
        = trace st)
  /\ trace (fst (enable_automation k st)) = trace st
  /\ trace (fst (disable_automation k st)) = trace st
  /\ trace (fst (delete_automation k st)) = trace st
  /\ (forall context,
        let st' := fst (trigger_automation now now' k context st) in
        trace st `prefix_of` trace st' /\ jobs st' = jobs st)
  /\ (forall due,
        let st' := run_pending due now st in
        trace st `prefix_of` trace st'
        /\ jobs st' = jobs st
        /\ automations st' = automations st).
Proof.
  assert (Hcreate : forall new_name trig acts conds,
            trace (fst (create_automation now now' new_name trig acts conds st))
            = trace st).
  { intros. unfold create_automation.
    by destruct (bind (parse_trigger trig) _) as [[? ?] |]. }
  split; [exact Hcreate |]. split.
  { intros. unfold create_from_template.
    destruct (registry_lookup templates template_name); [apply Hcreate | done]. }
  split; [unfold enable_automation; by destruct (automations st !! k) |].
  split; [unfold disable_automation; by destruct (automations st !! k) |].
  split; [unfold delete_automation; by destruct (automations st !! k) |].
  split.
  - intros context. cbv zeta. unfold trigger_automation.
    destruct (automations st !! k) as [a |]; [| done].
    destruct (negb (enabled a)); [done |].
    destruct (negb (_check_conditions _ _)); [done |].
    pose proof (execute_automation_trace a (or_empty context) now (trace st)) as Htr.
    destruct (_execute_automation a (or_empty context) now (trace st)) as [tr r].
    cbn [fst trace jobs] in *. split; [| done].
    rewrite Htr. apply run_actions_extends.
  - intros due. cbv zeta. split; [apply run_pending_extends |].
    by destruct (run_pending_automations due now st) as [-> ->].
Qed.

End Footprints.

(** ** Templates and suggestions *)

Lemma dict_get_merge a b k :
  dict_get (dict_merge a b) k
  = match dict_get b k with
    | Some v => Some v
    | None => dict_get a k
    end.
Proof.
  unfold dict_merge. induction b as [| [k' v] rest IH]; [reflexivity |].
  simpl. by destruct (String.eqb k' k).
Qed.

Lemma registry_lookup_In {A} (reg : list (string * A)) k x :
  registry_lookup reg k = Some x -> In (k, x) reg.
Proof.
  induction reg as [| [k' y] rest IH]; [discriminate |]. simpl.
  destruct (String.eqb k' k) eqn:Heq.
  - apply String.eqb_eq in Heq. intros [= ->]. left. by subst.
  - auto.
Qed.

(** What instantiating a template whose trigger and actions parse leaves
    behind. *)
Lemma create_from_template_parsed now_id now_created template_name template
    custom st trigger_obj action_objs :
  registry_lookup templates template_name = Some template ->
  parse_trigger (dict_merge (tmpl_trigger template)
                   (default [] (custom_trigger (default no_customizations custom))))
  = Ok trigger_obj ->
  parse_actions (default (tmpl_actions template)
                   (custom_actions (default no_customizations custom)))
  = Ok action_objs ->
  exists st' a,
    create_from_template now_id now_created template_name custom st
    = (st', Ok (Created (automation_id_at now_id) (name a) "created"
                  ("Automation '" +:+ name a +:+ "' created successfully")))
    /\ automations st' !! automation_id_at now_id = Some a
    /\ name a = default (tmpl_name template)
                  (custom_name (default no_customizations custom))
    /\ conditions a = default (tmpl_conditions template)
                        (custom_conditions (default no_customizations custom))
    /\ trigger a = trigger_obj
    /\ actions a = action_objs
    /\ enabled a = true.
Proof.
  intros Hlook Htrig Hacts. unfold create_from_template, create_automation.
  rewrite Hlook, Htrig. simpl. rewrite Hacts. simpl.
  match goal with |- context [<[_ := ?a0]> _] => eexists _, a0 end.
  split; [reflexivity |]. cbn [automations].
  split; [apply lookup_insert_eq |]. by repeat split.
Qed.

(** X18. Every template [get_automation_templates] lists can be
    instantiated as it stands: on any engine and at any time
    [create_from_template] with a listed id and no customizations succeeds
    and stores an enabled automation with the listed name, the listed
    number of actions and the listed trigger kind.  All seven templates are
    listed, in the order of the table. *)
Theorem listed_templates_instantiate now_id now_created st :
  exists listing,
    get_automation_templates = Ok listing
    /\ map listed_id listing = map fst templates
    /\ length listing = 7%nat
    /\ Forall (fun entry =>
                 exists st' a,
                   create_from_template now_id now_created (listed_id entry)
                     None st
                   = (st', Ok (Created (automation_id_at now_id)
                                 (listed_name entry) "created"
                                 ("Automation '" +:+ listed_name entry
                                  +:+ "' created successfully")))
                   /\ automations st' !! automation_id_at now_id = Some a
                   /\ name a = listed_name entry
                   /\ length (actions a) = listed_actions_count entry
                   /\ listed_trigger_type entry
                      = PyStr (TriggerType_value (trigger_type (trigger a)))
                   /\ enabled a = true)
              listing.
Proof.
  let listed := eval vm_compute in get_automation_templates in
  lazymatch listed with Ok ?l => exists l end.
  do 3 (split; [vm_compute; reflexivity |]).
  repeat (apply Forall_cons; split); [.. | by apply Forall_nil];
    cbv beta;
    match goal with
    | |- context [create_from_template _ _ (listed_id ?entry) None _] =>
        let n := eval cbn in (listed_id entry) in
        let found := eval vm_compute in (registry_lookup templates n) in
        lazymatch found with
        | Some ?tpl =>
            let parsed_trigger :=
              eval vm_compute in (parse_trigger (dict_merge (tmpl_trigger tpl) [])) in
            let parsed_actions :=
              eval vm_compute in (parse_actions (tmpl_actions tpl)) in
            lazymatch constr:((parsed_trigger, parsed_actions)) with
            | (Ok ?t, Ok ?l) =>
                destruct (create_from_template_parsed now_id now_created n tpl
                            None st t l)
                  as (st' & a & Hc & Hk & Hname & _ & Htrig & Hacts & Hen);
                [vm_compute; reflexivity ..|]
            end
        end
    end;
    exists st', a;
    cbn [listed_id listed_name listed_actions_count listed_trigger_type];
    rewrite Hname in Hc;
    (split; [exact Hc |]); (split; [exact Hk |]); (split; [exact Hname |]);
    rewrite Hacts, Htrig; by repeat split.
Qed.

Lemma registry_lookup_None {A} (reg : list (string * A)) k :
  registry_lookup reg k = None <-> ~ In k (map fst reg).
Proof.
  rewrite <- registry_lookup_Some. split.
  - intros -> [x [=]].
  - intros H. destruct (registry_lookup reg k); [destruct H; eauto | done].
Qed.

(** X19. A name that is not a template's is refused by a returned error
    reply, not by an exception, whatever the customizations, and the engine
    is left as it was. *)
Theorem unknown_template_is_refused now_id now_created template_name custom st :
  ~ In template_name (map fst templates) ->
  create_from_template now_id now_created template_name custom st
  = (st, Ok (Error ("Template '" +:+ template_name +:+ "' not found"))).
Proof.
  intros Hnot. apply registry_lookup_None in Hnot.
  unfold create_from_template. by rewrite Hnot.
Qed.

Lemma unknown_template_is_refused_witness :
  ~ In "weekend_routine" (map fst templates)
  /\ create_from_template t0 (t0 + 7) "weekend_routine" None empty_engine
     = (empty_engine, Ok (Error ("Template '" +:+ "weekend_routine" +:+ "' not found"))).
Proof.
  assert (H : ~ In "weekend_routine" (map fst templates)).
  { apply registry_lookup_None. reflexivity. }
  split; [exact H |].
  apply (unknown_template_is_refused t0 (t0 + 7) "weekend_routine" None
           empty_engine H).
Defined.

(** X20. Customizations replace, and what they leave out is inherited.  When
    instantiating a template succeeds, the stored automation has the custom
    name, conditions and action list where given and the template's
    otherwise (the action list is replaced whole, never merged); its trigger
    is merged key by key, so a custom [condition] alone keeps the template's
    [type], and the other way round. *)
Theorem customizations_replace_or_inherit now_id now_created template_name
    template custom st st' r :
  registry_lookup templates template_name = Some template ->
  create_from_template now_id now_created template_name (Some custom) st
  = (st', Ok r) ->
  exists a,
    automations st' !! automation_id_at now_id = Some a
    /\ name a = default (tmpl_name template) (custom_name custom)
    /\ conditions a
       = default (tmpl_conditions template) (custom_conditions custom)
    /\ parse_actions (default (tmpl_actions template) (custom_actions custom))
       = Ok (actions a)
    /\ (forall v,
          (match dict_get (default [] (custom_trigger custom)) "condition" with
           | Some c => Some c
           | None => dict_get (tmpl_trigger template) "condition"
           end) = Some v
          <-> trigger_condition (trigger a) = v)
    /\ (forall v,
          (match dict_get (default [] (custom_trigger custom)) "type" with
           | Some t => Some t
           | None => dict_get (tmpl_trigger template) "type"
           end) = Some v
          <-> v = PyStr (TriggerType_value (trigger_type (trigger a)))).
Proof.
  intros Hlook. unfold create_from_template. rewrite Hlook.
  change (default no_customizations (Some custom)) with custom. intros Hcreate.
  pose proof Hcreate as Hfields.
  apply create_automation_fields in Hfields
    as (a & Hk & Hname & Hconds & Hty & Hcond & _ & Hacts).
  exists a. split; [exact Hk |]. split; [exact Hname |].
  split; [exact Hconds |].
  rewrite dict_get_merge in Hty, Hcond. rewrite Hty, Hcond.
  split; [| split; intros v; split; congruence].
  revert Hcreate Hk. unfold create_automation.
  destruct (parse_trigger _) as [t |]; [| discriminate]. simpl.
  destruct (parse_actions _) as [l |]; [| discriminate]. simpl.
  intros [= <- _]. cbn [automations]. rewrite lookup_insert_eq.
  by intros [= <-].
Qed.

Lemma customizations_replace_or_inherit_witness :
  let custom :=
    {| custom_name := Some "Early start";
       custom_trigger := Some [("condition", PyStr "0 18 * * *")];
       custom_actions := None;
       custom_conditions := Some [] |} in
  let created :=
    create_from_template t0 (t0 + 7) "morning_routine" (Some custom)
      empty_engine in
  exists template a,
    registry_lookup templates "morning_routine" = Some template
    /\ created = (fst created,
                  Ok (Created sample_id "Early start" "created"
                        "Automation 'Early start' created successfully"))
    /\ automations (fst created) !! automation_id_at t0 = Some a
    /\ name a = "Early start"
    /\ conditions a = []
    /\ length (actions a) = 2%nat
    /\ trigger_type (trigger a) = TIME_BASED
    /\ trigger_condition (trigger a) = PyStr "0 18 * * *"
    /\ (job_at_time <$> jobs (fst created)) = [Some "18:00"].
Proof.
  cbv zeta.
  destruct (customizations_replace_or_inherit t0 (t0 + 7) "morning_routine"
              (default {| tmpl_name := ""; tmpl_description := "";
                          tmpl_trigger := []; tmpl_actions := [];
                          tmpl_conditions := [] |}
                 (registry_lookup templates "morning_routine"))
              {| custom_name := Some "Early start";
                 custom_trigger := Some [("condition", PyStr "0 18 * * *")];
                 custom_actions := None;
                 custom_conditions := Some [] |}
              empty_engine _ _ eq_refl eq_refl)
    as (a & Hk & Hname & Hconds & Hacts & Hcond & Hty).
  eexists _, a. split; [reflexivity |]. split; [reflexivity |].
  split; [exact Hk |]. split; [exact Hname |]. split; [exact Hconds |].
  split.
  { apply parse_actions_fields, Forall2_length in Hacts. by rewrite <- Hacts. }
  split.
  { specialize (Hty (PyStr "time_based")). destruct Hty as [Hty _].
    specialize (Hty eq_refl). injection Hty as Hty.
    by destruct (trigger_type (trigger a)). }
  split; [by apply Hcond |]. reflexivity.
Defined.

(** X21. Suggestions follow the activity flags and can be acted on: there is
    one suggestion per flag that is set, in the fixed order task creation,
    long sessions, morning planning; no template is suggested twice; and
    every suggested template can be instantiated, on any engine and at any
    time. *)
Theorem suggestions_can_be_instantiated user_activity now_id now_created st :
  map suggested_template (suggest_automations user_activity)
  = ((if activity_flag user_activity "frequent_task_creation"
      then ["task_completion_celebration"] else [])
     ++ (if activity_flag user_activity "long_work_sessions"
         then ["health_reminder"] else [])
     ++ (if activity_flag user_activity "morning_planning"
         then ["morning_routine"] else []))%list
  /\ NoDup (map suggested_template (suggest_automations user_activity))
  /\ Forall (fun s =>
               exists st' a new_name message,
                 create_from_template now_id now_created (suggested_template s)
                   None st
                 = (st', Ok (Created (automation_id_at now_id) new_name
                               "created" message))
                 /\ automations st' !! automation_id_at now_id = Some a
                 /\ enabled a = true)
            (suggest_automations user_activity).
Proof.
  cbv zeta. unfold suggest_automations.
  assert (Hcan : forall n,
            In n ["task_completion_celebration"; "health_reminder";
                  "morning_routine"] ->
            exists st' a new_name message,
              create_from_template now_id now_created n None st
              = (st', Ok (Created (automation_id_at now_id) new_name
                            "created" message))
              /\ automations st' !! automation_id_at now_id = Some a
              /\ enabled a = true).
  { intros n Hn.
    assert (Hparsed : exists tpl t l,
              registry_lookup templates n = Some tpl
              /\ parse_trigger (dict_merge (tmpl_trigger tpl) []) = Ok t
              /\ parse_actions (tmpl_actions tpl) = Ok l).
    { destruct Hn as [<- | [<- | [<- | []]]]; eexists _, _, _;
        repeat split; reflexivity. }
    destruct Hparsed as (tpl & t & l & Hlook & Ht & Hl).
    destruct (create_from_template_parsed now_id now_created n tpl None st t l
                Hlook Ht Hl)
      as (st' & a & Hc & Hk & _ & _ & _ & _ & Hen).
    exists st', a. eauto. }
  destruct (activity_flag user_activity "frequent_task_creation"),
    (activity_flag user_activity "long_work_sessions"),
    (activity_flag user_activity "morning_planning");
    cbn [app map suggested_template];
    (split; [reflexivity |]);
    (split; [apply NoDup_ListNoDup; repeat constructor; simpl;
             intuition discriminate |]);
    repeat constructor; apply Hcan; simpl; tauto.
Qed.

(** No flag set, nothing suggested. *)
Example no_activity_no_suggestions : suggest_automations [] = [].
Proof. reflexivity. Qed.

(** ** The listing *)

Lemma map_to_list_values_In {V} (m : gmap string V) (x : V) :
  In x (map_to_list m).*2 <-> exists k, m !! k = Some x.
Proof.
  rewrite <- list_elem_of_In, list_elem_of_fmap. split.
  - intros [[k y] [-> Hin]]. apply elem_of_map_to_list in Hin. eauto.
  - intros [k Hk]. exists (k, x). split; [reflexivity |].
    by apply elem_of_map_to_list.
Qed.

Lemma summary_ids_are_keys (l : list (string * Automation)) :
  (forall k a, In (k, a) l -> id a = k) ->
  map summary_id (automation_summary <$> l.*2) = l.*1.
Proof.
  induction l as [| [k a] rest IH]; intros Hall; [reflexivity |].
  cbn. f_equal; [apply Hall; by left |].
  apply IH. intros k' a' Hrest. apply Hall. by right.
Qed.

Section ListingFacts.
Context {SM : ServiceManager}.

(** X22. [get_active_automations] lists the whole catalog, disabled
    automations included: one summary per stored automation and nothing
    else, each carrying the record's id, enabled flag, statistics and number
    of actions; and in a reachable engine no id is listed twice. *)
Theorem listing_is_the_catalog st :
  reachable st ->
  length (get_active_automations st) = size (automations st)
  /\ (forall s,
        In s (get_active_automations st)
        <-> exists k a, automations st !! k = Some a /\ s = automation_summary a)
  /\ (forall k a,
        automations st !! k = Some a ->
        exists s,
          In s (get_active_automations st)
          /\ summary_id s = k
          /\ summary_enabled s = enabled a
          /\ summary_run_count s = run_count a
          /\ summary_last_run s = last_run a
          /\ summary_actions_count s = length (actions a))
  /\ NoDup (map summary_id (get_active_automations st)).
Proof.
  intros Hreach. destruct (reachable_keyed_quiet st Hreach) as [Hkeyed _].
  unfold get_active_automations.
  assert (Hin : forall s,
            In s (automation_summary <$> (map_to_list (automations st)).*2)
            <-> exists k a, automations st !! k = Some a
                            /\ s = automation_summary a).
  { intros s. rewrite <- list_elem_of_In, list_elem_of_fmap. split.
    - intros (a & -> & Ha). apply list_elem_of_In, map_to_list_values_In in Ha.
      destruct Ha as [k Hk]. eauto.
    - intros (k & a & Hk & ->). exists a. split; [reflexivity |].
      apply list_elem_of_In, map_to_list_values_In. eauto. }
  split; [by rewrite !length_fmap, length_map_to_list |].
  split; [exact Hin |]. split.
  - intros k a Hk. exists (automation_summary a).
    split; [apply Hin; eauto |]. cbn. split; [by apply Hkeyed | done].
  - rewrite summary_ids_are_keys.
    + apply NoDup_fst_map_to_list.
    + intros k a Hka. apply Hkeyed.
      by apply elem_of_map_to_list, list_elem_of_In.
Qed.

End ListingFacts.

Lemma listing_is_the_catalog_witness :
  let st := fst (disable_automation sample_id
                   (engine_with daily_trigger [plan_task] [])) in
  reachable (SM := async_service_manager) st
  /\ map summary_enabled (get_active_automations st) = [false]
  /\ length (get_active_automations st) = size (automations st)
  /\ (forall s,
        In s (get_active_automations st)
        <-> exists k a, automations st !! k = Some a /\ s = automation_summary a)
  /\ (forall k a,
        automations st !! k = Some a ->
        exists s,
          In s (get_active_automations st)
          /\ summary_id s = k
          /\ summary_enabled s = enabled a
          /\ summary_run_count s = run_count a
          /\ summary_last_run s = last_run a
          /\ summary_actions_count s = length (actions a))
  /\ NoDup (map summary_id (get_active_automations st)).
Proof.
  assert (Hreach : reachable (SM := async_service_manager)
                     (fst (disable_automation sample_id
                             (engine_with daily_trigger [plan_task] [])))).
  { eapply reachable_step; [apply engine_with_reachable | apply step_disable]. }
  split; [exact Hreach |]. split; [reflexivity |].
  apply (listing_is_the_catalog (SM := async_service_manager) _ Hreach).
Defined.

(** ** Gating and counting over several triggers *)

Section RepeatedTriggers.
Context {SM : ServiceManager}.

Lemma upcoming_meeting_unmet conds context :
  In "upcoming_meeting" conds -> _check_conditions conds context = false.
Proof.
  intros Hin. rewrite check_conditions_each, check_each_forallb.
  apply not_true_is_false. intros Hall.
  rewrite forallb_forall in Hall. by specialize (Hall _ Hin).
Qed.

(** X23. The [upcoming_meeting] condition is never met: a condition list
    that names it is unmet on every context, so a manual trigger of an
    enabled automation that lists it is always refused with "conditions not
    met" and runs nothing. *)
Theorem upcoming_meeting_blocks_manual_runs st k a context now_exec now_run :
  automations st !! k = Some a ->
  enabled a = true ->
  In "upcoming_meeting" (conditions a) ->
  _check_conditions (conditions a) (or_empty context) = false
  /\ trigger_automation now_exec now_run k context st
     = (st, ConditionsNotMetError).
Proof.
  intros Hk Hen Hin.
  pose proof (upcoming_meeting_unmet _ (or_empty context) Hin) as Hunmet.
  split; [exact Hunmet |].
  unfold trigger_automation. by rewrite Hk, Hen, Hunmet.
Qed.

Lemma trigger_each_snoc k context clock now_exec now_run st :
  trigger_each k context (clock ++ [(now_exec, now_run)]) st
  = fst (trigger_automation now_exec now_run k context
           (trigger_each k context clock st)).
Proof. unfold trigger_each. by rewrite fold_left_app. Qed.

(** X24. Manual triggers count one by one: after [n] triggers in a row of an
    enabled automation whose conditions are met on the context given,
    [run_count] has grown by exactly [n], [last_run] is the clock reading of
    the last one, and the name, actions, conditions, enabled flag and
    success rate are as before. *)
Theorem n_triggers_count_n st k a context clock :
  automations st !! k = Some a ->
  enabled a = true ->
  _check_conditions (conditions a) (or_empty context) = true ->
  exists a_n,
    automations (trigger_each k context clock st) !! k = Some a_n
    /\ run_count a_n = run_count a + Z.of_nat (length clock)
    /\ last_run a_n = match last clock with
                      | Some reading => Some (snd reading)
                      | None => last_run a
                      end
    /\ name a_n = name a
    /\ actions a_n = actions a
    /\ conditions a_n = conditions a
    /\ enabled a_n = true
    /\ success_rate a_n = success_rate a.
Proof.
  intros Hk Hen Hcond. induction clock as [| [now_exec now_run] clock IH] using rev_ind.
  - exists a. cbn. rewrite Z.add_0_r. by repeat split.
  - destruct IH as (a_n & Hk_n & Hcount & _ & Hname & Hacts & Hconds & Hen_n & Hrate).
    rewrite trigger_each_snoc. unfold trigger_automation.
    rewrite Hk_n, Hen_n, Hconds, Hcond. cbn [negb].
    destruct (_execute_automation a_n (or_empty context) now_exec _) as [tr r].
    exists (record_run now_run a_n). cbn [fst automations].
    split; [apply lookup_insert_eq |].
    rewrite last_snoc, length_app.
    cbn [record_run run_count last_run name actions conditions enabled
         success_rate length snd].
    repeat split; try done. lia.
Qed.

End RepeatedTriggers.

Lemma upcoming_meeting_blocks_manual_runs_witness :
  let st := fst (create_from_template t0 (t0 + 7) "meeting_preparation" None
                   empty_engine) in
  exists a,
    automations st !! sample_id = Some a
    /\ enabled a = true
    /\ In "upcoming_meeting" (conditions a)
    /\ _check_conditions (conditions a) (or_empty (Some working)) = false
    /\ trigger_automation (SM := async_service_manager) (t0 + 8) (t0 + 9)
         sample_id (Some working) st
       = (st, ConditionsNotMetError).
Proof.
  eexists. split; [reflexivity |]. split; [reflexivity |].
  split; [left; reflexivity |].
  apply (upcoming_meeting_blocks_manual_runs (SM := async_service_manager));
    [reflexivity | reflexivity | left; reflexivity].
Defined.

Lemma n_triggers_count_n_witness :
  let st := engine_with manual_trigger [plan_task] ["work_mode"] in
  let clock := [(t0 + 1, t0 + 2); (t0 + 3, t0 + 4); (t0 + 5, t0 + 6)] in
  exists a a_n,
    automations st !! sample_id = Some a
    /\ enabled a = true
    /\ _check_conditions (conditions a) (or_empty (Some working)) = true
    /\ automations (trigger_each (SM := async_service_manager) sample_id
                      (Some working) clock st) !! sample_id = Some a_n
    /\ run_count a_n = 3
    /\ last_run a_n = Some (t0 + 6)
    /\ success_rate a_n = success_rate a.
Proof.
  cbv zeta.
  destruct (n_triggers_count_n (SM := async_service_manager)
              (engine_with manual_trigger [plan_task] ["work_mode"]) sample_id
              _ (Some working)
              [(t0 + 1, t0 + 2); (t0 + 3, t0 + 4); (t0 + 5, t0 + 6)]
              eq_refl eq_refl eq_refl)
    as (a_n & Hk & Hcount & Hlast & _ & _ & _ & _ & Hrate).
  eexists _, a_n. do 3 (split; [reflexivity |]).
  split; [exact Hk |]. split; [exact Hcount |]. split; [exact Hlast |].
  exact Hrate.
Defined.

(** ** Priorities through the Todoist connector *)

Lemma map_priority_range priority : 1 <= _map_priority priority <= 4.
Proof.
  unfold _map_priority, priority_numbers. cbn [registry_lookup].
  repeat (match goal with
          | |- context [String.eqb ?a ?b] => destruct (String.eqb a b)
          end; [cbn; lia |]).
  cbn. lia.
Qed.

Lemma unmap_map_number n :
  _map_priority (_unmap_priority n) = if (1 <=? n) && (n <=? 4) then n else 2.
Proof.
  unfold _unmap_priority.
  destruct (Z.eqb_spec n 1) as [-> | ?]; [reflexivity |].
  destruct (Z.eqb_spec n 2) as [-> | ?]; [reflexivity |].
  destruct (Z.eqb_spec n 3) as [-> | ?]; [reflexivity |].
  destruct (Z.eqb_spec n 4) as [-> | ?]; [reflexivity |].
  destruct (Z.leb_spec 1 n), (Z.leb_spec n 4); cbn [andb]; try reflexivity. lia.
Qed.

(** X25. Task priorities survive the trip through Todoist's numbers: a
    number from 1 to 4 maps to its name and back to itself, any other number
    comes back as 2; and a priority name, in any letter case, comes back
    lower-cased when it is one of low, medium, high, urgent and as "medium"
    otherwise. *)
Theorem priority_round_trip :
  (forall n,
     _map_priority (_unmap_priority n)
     = if (1 <=? n) && (n <=? 4) then n else 2)
  /\ (forall priority,
        _unmap_priority (_map_priority priority)
        = if existsb (String.eqb (string_lower priority))
               ["low"; "medium"; "high"; "urgent"]
          then string_lower priority else "medium")
  /\ (forall priority, 1 <= _map_priority priority <= 4).
Proof.
  split; [exact unmap_map_number |]. split.
  - intros priority. unfold _map_priority, priority_numbers.
    cbn [registry_lookup existsb].
    rewrite !(String.eqb_sym (string_lower priority)).
    destruct (String.eqb "low" (string_lower priority)) eqn:H1;
      [apply String.eqb_eq in H1; by rewrite <- H1 |].
    destruct (String.eqb "medium" (string_lower priority)) eqn:H2;
      [apply String.eqb_eq in H2; by rewrite <- H2 |].
    destruct (String.eqb "high" (string_lower priority)) eqn:H3;
      [apply String.eqb_eq in H3; by rewrite <- H3 |].
    destruct (String.eqb "urgent" (string_lower priority)) eqn:H4;
      [apply String.eqb_eq in H4; by rewrite <- H4 |].
    reflexivity.
  - exact map_priority_range.
Qed.

Example priority_examples :
  _map_priority "URGENT" = 4
  /\ _map_priority "whenever" = 2
  /\ _unmap_priority 7 = "medium".
Proof. repeat split; reflexivity. Qed.
